(** * scrape_data: a shallow embedding of the URL scraper

    The development follows [scr/scrape_data.py] function by function:
    [import_file], [print_to_file], [extract_value_from_url] and
    [process_urls].  The outside world (the file system, the HTTP
    server, numpy's generator) is an explicit environment [Env]; what the
    program does to it (requests, sleeps, log records, the CSV written) is
    the list of [event]s a run emits. *)

From Stdlib Require Import ZArith Lia Ascii String.
From stdpp Require Import base list strings pretty.

#[local] Set Warnings "-register-all".
Local Open Scope Z_scope.

(** ** Python strings

    A string is a sequence of characters with code points below 256. *)

(** [str.isspace] on one character of that range: TAB..CR, FS..US,
    SPACE, NEL and NBSP. *)
Definition isspace (c : ascii) : bool :=
  let n := Ascii.N_of_ascii c in
  ((9 <=? n) && (n <=? 13) || (28 <=? n) && (n <=? 32)
   || (n =? 133) || (n =? 160))%N.

Fixpoint lstrip (s : string) : string :=
  match s with
  | EmptyString => EmptyString
  | String c rest => if isspace c then lstrip rest else s
  end.

Definition rstrip (s : string) : string := String.rev (lstrip (String.rev s)).

(** [s.strip()] *)
Definition strip (s : string) : string := rstrip (lstrip s).

(** Truth value of a [str]: it is non-empty. *)
Definition truthy (s : string) : bool :=
  match s with EmptyString => false | String _ _ => true end.

Definition newline : string := String (Ascii.ascii_of_nat 10) EmptyString.

(** ** The parsed page

    [BeautifulSoup(response.text, 'html.parser')] is taken as the tree
    the parser builds: tags with their attribute dictionary and
    contents, and the strings between them. *)
Inductive node : Type :=
| NavigableString (s : string)
| Tag (name : string) (attrs : list (string * string)) (contents : list node).

Definition soup : Type := list node.

(** Every node below (and including) [n], in document order. *)
Fixpoint descendants_or_self (n : node) : list node :=
  match n with
  | NavigableString _ => [n]
  | Tag _ _ contents =>
      n :: (fix go (l : list node) : list node :=
              match l with
              | [] => []
              | c :: l' => descendants_or_self c ++ go l'
              end) contents
  end.

Definition descendants (page : soup) : list node :=
  flat_map descendants_or_self page.

(** Lookup in an attribute dictionary. *)
Fixpoint attr_get (key : string) (attrs : list (string * string)) : option string :=
  match attrs with
  | [] => None
  | (k, v) :: rest => if String.eqb k key then Some v else attr_get key rest
  end.

(** Does [n] match [find(name, attrs={key: value})]? *)
Definition matches (name key value : string) (n : node) : bool :=
  match n with
  | NavigableString _ => false
  | Tag nm attrs _ =>
      String.eqb nm name &&
      match attr_get key attrs with
      | Some v => String.eqb v value
      | None => false
      end
  end.

(** [soup.find(name, attrs={key: value})]: the first matching tag of
    the page, or [None]. *)
Definition find (name key value : string) (page : soup) : option node :=
  List.find (matches name key value) (descendants page).

(** The strings inside [n], in document order. *)
Definition all_strings (n : node) : list string :=
  flat_map (fun d => match d with NavigableString s => [s] | Tag _ _ _ => [] end)
           (descendants_or_self n).

(** [tag.get_text(strip=True)]: every string stripped, the empty ones
    dropped, the rest joined with nothing in between. *)
Definition get_text_strip (n : node) : string :=
  fold_right String.append EmptyString
             (List.filter truthy (List.map strip (all_strings n))).

(** ** Outcomes of one extraction

    The Python function returns [Optional[str]]; the constructor records
    which [return] produced the value: line 92 ([Text]), line 95
    ([Absent]) or one of the failure strings. *)
Inductive ExtractionOutcome : Type :=
| Text (value : string)
| FailureDescription (reason : string)
| Absent.

(** A cell of a table: [None] stands for NaN/None, and a value is
    kept as the text [str] gives for it. *)
Definition cell : Type := option string.

(** The Python value of an outcome, as stored in the table. *)
Definition py_value (o : ExtractionOutcome) : cell :=
  match o with
  | Text v => Some v
  | FailureDescription r => Some r
  | Absent => None
  end.

(** ** Tables

    A [DataFrame] is stored by column, as pandas does: the number of
    rows and, for every column in order, its name and its cells.  The
    index is positional (labels 0, 1, ...): [read_csv] builds it so and
    [reset_index(drop=True)] restores it after sampling.  Column names
    are looked up from the left; [read_csv] renames repeated headers, so
    the tables of the program have distinct names. *)
Record DataFrame : Type := {
  nrows : nat;
  columns : list (string * list cell)
}.

(** [pd.DataFrame()] *)
Definition DataFrame_new : DataFrame := {| nrows := 0; columns := [] |}.

(** [df.empty]: one of the two axes has length 0. *)
Definition empty (df : DataFrame) : bool :=
  (nrows df =? 0)%nat || (length (columns df) =? 0)%nat.

(** [df[name]], [None] standing for the [KeyError]. *)
Fixpoint getitem_columns (cols : list (string * list cell)) (name : string)
  : option (list cell) :=
  match cols with
  | [] => None
  | (k, col) :: rest => if String.eqb k name then Some col else getitem_columns rest name
  end.

Definition getitem (df : DataFrame) (name : string) : option (list cell) :=
  getitem_columns (columns df) name.

(** Apply [f] to the column called [name]. *)
Definition alter_column (f : list cell -> list cell) (name : string)
    (cols : list (string * list cell)) : list (string * list cell) :=
  List.map (fun c => if String.eqb (fst c) name then (fst c, f (snd c)) else c) cols.

(** [df[name] = value] for a scalar: an existing column is overwritten
    in place, a new one is appended after the others. *)
Definition setitem (df : DataFrame) (name : string) (value : cell) : DataFrame :=
  let fresh := replicate (nrows df) value in
  {| nrows := nrows df;
     columns := match getitem df name with
                | Some _ => alter_column (fun _ => fresh) name (columns df)
                | None => columns df ++ [(name, fresh)]
                end |}.

(** [df.at[index, name] = value], for a label and a column of the
    table (the only use the program makes of it). *)
Definition at_set (df : DataFrame) (index : nat) (name : string) (value : cell)
  : DataFrame :=
  {| nrows := nrows df;
     columns := alter_column (fun col => <[index := value]> col) name (columns df) |}.

(** [series.count()]: the cells that are not NaN/None. *)
Definition count (col : list cell) : nat :=
  length (List.filter (fun c : cell => match c with Some _ => true | None => false end) col).

(** One row, as [iterrows] yields it: the cell of every column. *)
Definition row : Type := list (string * cell).

(** The cell of a column at position [i] (NaN past its end). *)
Definition cell_at (col : list cell) (i : nat) : cell :=
  match col !! i with Some v => v | None => None end.

Definition row_at (df : DataFrame) (i : nat) : row :=
  List.map (fun c : string * list cell => (fst c, cell_at (snd c) i)) (columns df).

(** [row[name]] *)
Fixpoint row_get (r : row) (name : string) : cell :=
  match r with
  | [] => None
  | (k, v) :: rest => if String.eqb k name then v else row_get rest name
  end.

(** [df.iterrows()]: the rows with their labels, in order, taken from
    the table as it is when the loop starts. *)
Definition iterrows (df : DataFrame) : list (nat * row) :=
  List.map (fun i => (i, row_at df i)) (seq 0 (nrows df)).

(** [df.take(positions)] *)
Definition take_rows (df : DataFrame) (positions : list nat) : option DataFrame :=
  cols ← mapM (fun c : string * list cell =>
                 col ← mapM (fun i => snd c !! i) positions; Some (fst c, col))
              (columns df);
  Some {| nrows := length positions; columns := cols |}.

(** ** Exceptions, events and the environment *)
Inductive exception : Type :=
| HTTPError (msg : string) (response_status : option Z)
| Timeout (msg : string)
| RequestException (msg : string)
| FileNotFoundError (msg : string)
| KeyError (key : string)
| Exception (msg : string).

(** [str(e)] *)
Definition str_exception (e : exception) : string :=
  match e with
  | HTTPError msg _ | Timeout msg | RequestException msg
  | FileNotFoundError msg | Exception msg => msg
  | KeyError key => "'" +:+ key +:+ "'"
  end.

(** What [requests.get] does: it answers or it raises. *)
Inductive reply : Type :=
| Response (status_code : Z) (http_error_msg : string) (page : soup)
| Raises (e : exception).

Inductive level : Type := INFO | WARNING | ERROR.

(** Seconds are natural numbers: [time.sleep] refuses negative ones. *)
Inductive event : Type :=
| Get (url : string)
| Sleep (seconds : N)
| Log (lvl : level) (msg : string)
| LogFrame (lvl : level) (df : DataFrame)
| ToCsv (path : string) (df : DataFrame).

(** numpy generators: one seeded by the program, or the process-wide
    one, whose state the program does not control. *)
Inductive generator : Type :=
| RandomState (seed : Z)
| GlobalState (entropy : Z).

Record Env : Type := {
  (** [pd.read_csv(path)] *)
  read_csv : string -> DataFrame + exception;
  (** [df.to_csv(path, index=False)]: [None] when it succeeds *)
  to_csv : string -> DataFrame -> option exception;
  (** the reply to the [n]-th request of the run, made to [url] *)
  requests_get : nat -> string -> reply;
  (** [generator.choice(population, size, replace=False)] *)
  choice : generator -> nat -> nat -> list nat;
  (** the state of the process-wide generator *)
  entropy : Z
}.

(** ** Runs

    A computation is given the number of requests made so far and
    returns its value, the events it emitted, in order, and the new
    number of requests. *)
Definition M (A : Type) : Type := nat -> A * list event * nat.

#[global] Instance M_ret : MRet M := fun A a sent => (a, [], sent).
#[global] Instance M_bind : MBind M := fun A B f m sent =>
  let '(a, ev1, sent1) := m sent in
  let '(b, ev2, sent2) := f a sent1 in
  (b, ev1 ++ ev2, sent2).

Definition emit (e : event) : M unit := fun sent => (tt, [e], sent).

Definition log (lvl : level) (msg : string) : M unit := emit (Log lvl msg).

(** [time.sleep(seconds)] *)
Definition sleep (seconds : N) : M unit := emit (Sleep seconds).

(** [requests.get(url, headers=headers, timeout=15)] *)
Definition get (env : Env) (url : string) : M reply :=
  fun sent => (requests_get env sent url, [Get url], S sent).

(** The result of running [m] from the start of a run. *)
Definition value {A} (r : A * list event * nat) : A := fst (fst r).
Definition events {A} (r : A * list event * nat) : list event := snd (fst r).
Definition sent_after {A} (r : A * list event * nat) : nat := snd r.

(** ** [import_file] *)

(** [df.sample(n=n, random_state=random_state)]: [n] rows drawn
    without replacement; with [random_state=None] pandas draws from the
    process-wide generator. *)
Definition DataFrame_sample (env : Env) (df : DataFrame) (n : Z)
    (random_state : option Z) : DataFrame + exception :=
  if n <? 0 then
    inr (Exception "A negative number of rows requested. Please provide `n` >= 0.")
  else if Z.of_nat (nrows df) <? n then
    inr (Exception "Cannot take a larger sample than population when 'replace=False'")
  else
    let rng := match random_state with
               | Some seed => RandomState seed
               | None => GlobalState (entropy env)
               end in
    match take_rows df (choice env rng (nrows df) (Z.to_nat n)) with
    | Some sampled => inl sampled
    | None => inr (Exception "indices are out-of-bounds")
    end.

(** [df.reset_index(drop=True)]: the labels become positions again,
    which is how a [DataFrame] is stored here. *)
Definition reset_index_drop (df : DataFrame) : DataFrame := df.

Definition import_file (env : Env) (csv_filename : string) (random_sample : bool)
    (sample_size : Z) : M (DataFrame + exception) :=
  match
    (* the [try] block *)
    match read_csv env csv_filename with
    | inl df =>
        if negb random_sample then inl (df, false)
        else match DataFrame_sample env df sample_size (Some 42) with
             | inl sampled => inl (reset_index_drop sampled, true)
             | inr e => inr e
             end
    | inr e => inr e
    end
  with
  | inl (df, false) =>
      _ ← log INFO ("Successfully loaded data from " +:+ csv_filename);
      mret (inl df)
  | inl (df_sample, true) =>
      _ ← log INFO ("Successfully loaded data from " +:+ csv_filename +:+
                     ". Random sample of " +:+ pretty sample_size +:+ " selected.");
      mret (inl df_sample)
  | inr (FileNotFoundError _) =>
      _ ← log WARNING ("'" +:+ csv_filename +:+ "' not found.");
      mret (inl DataFrame_new)
  | inr e => mret (inr e)
  end.

(** ** [print_to_file] *)
Definition print_to_file (env : Env) (df : DataFrame) (output_csv_filename : string)
  : M unit :=
  _ ← emit (ToCsv output_csv_filename df);
  match to_csv env output_csv_filename df with
  | None => log INFO ("Updated data saved to " +:+ output_csv_filename)
  | Some e => log ERROR ("Error saving to " +:+ output_csv_filename +:+ ": "
                           +:+ str_exception e)
  end.

(** ** [extract_value_from_url] *)

(** [response.raise_for_status()] *)
Definition raise_for_status (r : reply) : soup + exception :=
  match r with
  | Response status_code http_error_msg page =>
      if (400 <=? status_code) && (status_code <? 600)
      then inr (HTTPError http_error_msg (Some status_code))
      else inl page
  | Raises e => inr e
  end.

(** [f"{status_code}"], where the status is an integer or ['N/A']. *)
Definition str_status (status_code : option Z) : string :=
  match status_code with Some n => pretty n | None => "N/A" end.

(** How one turn of the [while] loop ends. *)
Inductive loop_exit : Type :=
| Return (o : ExtractionOutcome)
| LoopEnd.

(** The [while attempt <= max_retries] loop, started at [attempt] with
    [remaining] turns to go; [iterations] gives the number of turns the
    loop condition allows, and [attempts_unfold] below shows that
    with it the function satisfies the loop's own equation. *)
Fixpoint attempts (env : Env) (url_to_scrape : string) (max_retries : Z)
    (retry_delay : N) (remaining : nat) (attempt : Z) : M loop_exit :=
  match remaining with
  | O => mret LoopEnd
  | S remaining' =>
      _ ← log INFO ("Processing URL: " +:+ url_to_scrape +:+ " (Attempt: "
                     +:+ pretty (attempt + 1) +:+ " of " +:+ pretty (max_retries + 1));
      response ← get env url_to_scrape;
      match raise_for_status response with
      | inl page =>
          let extracted_text :=
            match find "span" "id" "sidebar-title" page with
            | Some result_counter => Some (get_text_strip result_counter)
            | None =>
                match find "span" "qaselector" "sidebar-result-counter" page with
                | Some result_counter_fallback =>
                    Some (get_text_strip result_counter_fallback)
                | None => None
                end
            end in
          match extracted_text with
          | Some (String _ _ as text) =>
              _ ← log INFO ("Successfully extracted: " +:+ text);
              mret (Return (Text text))
          | _ =>
              _ ← log WARNING ("Could not extract data for " +:+ url_to_scrape
                                +:+ " (element not found).");
              mret (Return Absent)
          end
      | inr (HTTPError http_err status_code) =>
          _ ← log ERROR ("HTTP Error for " +:+ url_to_scrape +:+ ": " +:+ http_err
                          +:+ " - Status: " +:+ str_status status_code);
          if bool_decide (status_code = Some 403) && (attempt <? max_retries) then
            _ ← log INFO ("Received 403 Forbidden. Waiting " +:+ pretty retry_delay
                           +:+ " seconds before retrying (Attempt "
                           +:+ pretty (attempt + 1) +:+ " failed)...");
            _ ← sleep retry_delay;
            attempts env url_to_scrape max_retries retry_delay remaining' (attempt + 1)
          else
            mret (Return (FailureDescription
                            ("HTTP Error: " +:+ str_status status_code +:+ " (Attempt "
                             +:+ pretty (attempt + 1) +:+ ")")))
      | inr (Timeout _) =>
          _ ← log ERROR ("Request Timeout for " +:+ url_to_scrape +:+ ".");
          if attempt <? max_retries then
            _ ← log INFO ("Waiting " +:+ pretty retry_delay
                           +:+ " seconds before retrying due to timeout...");
            _ ← sleep retry_delay;
            attempts env url_to_scrape max_retries retry_delay remaining' (attempt + 1)
          else
            mret (Return (FailureDescription "Request Timeout"))
      | inr (RequestException req_err) =>
          _ ← log ERROR ("Request Exception for " +:+ url_to_scrape +:+ ": " +:+ req_err);
          mret (Return (FailureDescription ("Request Exception: " +:+ req_err)))
      | inr e =>
          _ ← log ERROR ("An unexpected error occurred for " +:+ url_to_scrape +:+ ": "
                          +:+ str_exception e);
          mret (Return (FailureDescription ("Unexpected Error: " +:+ str_exception e)))
      end
  end.

(** The turns left when the loop is at [attempt]. *)
Definition iterations (max_retries attempt : Z) : nat :=
  Z.to_nat (max_retries - attempt + 1).

Definition extract_value_from_url (env : Env) (url_to_scrape : string)
    (max_retries : Z) (retry_delay : N) : M ExtractionOutcome :=
  exit ← attempts env url_to_scrape max_retries retry_delay
                  (iterations max_retries 0) 0;
  match exit with
  | Return o => mret o
  | LoopEnd =>
      mret (FailureDescription
              ("Failed after " +:+ pretty (max_retries + 1)
               +:+ " attempts (last error was likely 403 or Timeout)"))
  end.

(** ** [process_urls] *)

(** How a call ends: it returns, or an exception leaves it. *)
Inductive completion : Type :=
| Returned
| Raised (e : exception).

(** [str(row['url']) if pd.notna(row['url']) else ""] *)
Definition url_of (c : cell) : string :=
  match c with Some v => v | None => EmptyString end.

(** The [for index, row in df.iterrows()] loop over the rows still to
    visit, with the counter [requests_made_count] and the table. *)
Fixpoint rows_loop (env : Env) (total_requests_to_make : nat)
    (rows : list (nat * row)) (requests_made_count : nat) (df : DataFrame)
  : M DataFrame :=
  match rows with
  | [] => mret df
  | (index, r) :: rest =>
      let url := url_of (row_get r "url") in
      _ ← log INFO ("Processing row " +:+ pretty (index + 1)%nat +:+ " of "
                     +:+ pretty (nrows df) +:+ ":");
      if truthy (strip url) then
        result_value ← extract_value_from_url env url 2 5;
        let df := at_set df index "results" (py_value result_value) in
        let requests_made_count := S requests_made_count in
        _ ← (if (requests_made_count <? total_requests_to_make)%nat
              then sleep 2 else mret tt);
        rows_loop env total_requests_to_make rest requests_made_count df
      else
        _ ← log INFO ("Skipped empty or invalid url for row "
                       +:+ pretty (index + 1)%nat +:+ ".");
        rows_loop env total_requests_to_make rest requests_made_count df
  end.

Definition process_urls (env : Env) (csv_filename output_csv_filename : string)
    (random_sample : bool) (sample_size : Z) : M completion :=
  loaded ← import_file env csv_filename random_sample sample_size;
  match loaded with
  | inr e => mret (Raised e)
  | inl df =>
      if empty df then
        _ ← log ERROR "DataFrame is empty, exiting process_urls.";
        mret Returned
      else
        let df := setitem df "results" None in
        match getitem df "url" with
        | None => mret (Raised (KeyError "url"))
        | Some url_column =>
            let total_requests_to_make := count url_column in
            df ← rows_loop env total_requests_to_make (iterrows df) 0 df;
            _ ← log INFO (newline +:+ "--- Updated DataFrame ---");
            _ ← emit (LogFrame INFO df);
            _ ← print_to_file env df output_csv_filename;
            mret Returned
        end
  end.

(** ** [main] *)

(** The payload dictionary, for values of the types [process_urls]
    declares; a key that is absent is [None], other keys are not read. *)
Record Payload : Type := {
  payload_csv_filename : option string;
  payload_output_csv_filename : option string;
  payload_random_sample : option bool;
  payload_sample_size : option Z
}.

(** [payload[key]] for the four keys, in the order the call evaluates
    them, then the call; [Raised (KeyError key)] for the first key that
    is absent. *)
Definition main_try (env : Env) (payload : Payload) : M completion :=
  match payload_csv_filename payload with
  | None => mret (Raised (KeyError "csv_filename"))
  | Some csv_filename =>
      match payload_output_csv_filename payload with
      | None => mret (Raised (KeyError "output_csv_filename"))
      | Some output_csv_filename =>
          match payload_random_sample payload with
          | None => mret (Raised (KeyError "random_sample"))
          | Some random_sample =>
              match payload_sample_size payload with
              | None => mret (Raised (KeyError "sample_size"))
              | Some sample_size =>
                  process_urls env csv_filename output_csv_filename
                               random_sample sample_size
              end
          end
      end
  end.

Definition main (env : Env) (payload : Payload) : M unit :=
  done ← main_try env payload;
  match done with
  | Returned => mret tt
  | Raised (KeyError _ as e) =>
      log ERROR ("Missing key in payload: " +:+ str_exception e)
  | Raised e =>
      log ERROR ("An unexpected error occurred in main: " +:+ str_exception e)
  end.

(** ** The throttle, as specified

    The row loop as the specification words it: after the request of a
    row, sleep 2 seconds exactly when a row still to visit has a
    non-blank URL.  [rows_loop] decides with its two counters instead;
    the two are compared below. *)
Definition nonblank (r : nat * row) : bool :=
  truthy (strip (url_of (row_get (snd r) "url"))).

Fixpoint throttled_rows (env : Env) (rows : list (nat * row)) (df : DataFrame)
  : M DataFrame :=
  match rows with
  | [] => mret df
  | (index, r) :: rest =>
      let url := url_of (row_get r "url") in
      _ ← log INFO ("Processing row " +:+ pretty (index + 1)%nat +:+ " of "
                     +:+ pretty (nrows df) +:+ ":");
      if truthy (strip url) then
        result_value ← extract_value_from_url env url 2 5;
        let df := at_set df index "results" (py_value result_value) in
        _ ← (if existsb nonblank rest then sleep 2 else mret tt);
        throttled_rows env rest df
      else
        _ ← log INFO ("Skipped empty or invalid url for row "
                       +:+ pretty (index + 1)%nat +:+ ".");
        throttled_rows env rest df
  end.

(** ** Reading a run *)

(** The tables handed to [to_csv], with their paths. *)
Definition written (evs : list event) : list (string * DataFrame) :=
  flat_map (fun e => match e with ToCsv path df => [(path, df)] | _ => [] end) evs.

(** The URLs requested. *)
Definition requested (evs : list event) : list string :=
  flat_map (fun e => match e with Get url => [url] | _ => [] end) evs.

(** The sleeps, in seconds. *)
Definition sleeps (evs : list event) : list N :=
  flat_map (fun e => match e with Sleep s => [s] | _ => [] end) evs.

(** The messages logged at [ERROR]. *)
Definition errors (evs : list event) : list string :=
  flat_map (fun e => match e with Log ERROR msg => [msg] | _ => [] end) evs.

(** What the loop makes of a page that was fetched. *)
Definition outcome_of_page (page : soup) : ExtractionOutcome :=
  match find "span" "id" "sidebar-title" page with
  | Some result_counter =>
      match get_text_strip result_counter with
      | EmptyString => Absent
      | text => Text text
      end
  | None =>
      match find "span" "qaselector" "sidebar-result-counter" page with
      | Some result_counter_fallback =>
          match get_text_strip result_counter_fallback with
          | EmptyString => Absent
          | text => Text text
          end
      | None => Absent
      end
  end.

(** What the loop leaves in the [results] cell of a row whose URL cell
    is [url_cell] and whose [results] cell was [old]. *)
Definition stored (env : Env) (url_cell old new : cell) : Prop :=
  if truthy (strip (url_of url_cell)) then
    exists sent,
      new = py_value (value (extract_value_from_url env (url_of url_cell) 2 5 sent))
  else new = old.

(** The columns with [results] as their [results] column. *)
Definition with_results (cols : list (string * list cell)) (results : list cell)
  : list (string * list cell) :=
  match getitem_columns cols "results" with
  | Some _ => alter_column (fun _ => results) "results" cols
  | None => cols ++ [("results", results)]
  end.

(** The events that follow the last request of a run. *)
Fixpoint after_last_request (evs : list event) : list event :=
  match evs with
  | [] => []
  | e :: rest =>
      match requested rest, e with
      | [], Get _ => rest
      | _, _ => after_last_request rest
      end
  end.

(** Does the loop, with attempts left, go round again on this reply?
    (A 403, from the response or from the exception, or a timeout.) *)
Definition transient (r : reply) : bool :=
  match raise_for_status r with
  | inr (HTTPError _ status_code) => bool_decide (status_code = Some 403)
  | inr (Timeout _) => true
  | _ => false
  end.

(** What a turn of the loop returns when it is the one that ends the
    call, at [attempt] and with reply [r]. *)
Definition attempt_outcome (attempt : Z) (r : reply) : ExtractionOutcome :=
  match raise_for_status r with
  | inl page => outcome_of_page page
  | inr (HTTPError _ status_code) =>
      FailureDescription ("HTTP Error: " +:+ str_status status_code +:+ " (Attempt "
                          +:+ pretty (attempt + 1) +:+ ")")
  | inr (Timeout _) => FailureDescription "Request Timeout"
  | inr (RequestException req_err) =>
      FailureDescription ("Request Exception: " +:+ req_err)
  | inr e => FailureDescription ("Unexpected Error: " +:+ str_exception e)
  end.

(** A stand-in for numpy's [choice]: a seeded generator picks the first
    positions, the process-wide one starts from its state. *)
Definition toy_choice (g : generator) (population size : nat) : list nat :=
  match g with
  | RandomState _ => seq 0 size
  | GlobalState e => List.map (fun i => (i + Z.to_nat e) mod population)%nat (seq 0 size)
  end.

(** A small environment for examples: one CSV file [test.csv] and a
    server [answer]. *)
Definition env_of (table : DataFrame) (answer : nat -> string -> reply) : Env :=
  {| read_csv := fun path => if String.eqb path "test.csv" then inl table
                             else inr (FileNotFoundError path);
     to_csv := fun _ _ => None;
     requests_get := answer;
     choice := toy_choice;
     entropy := 0 |}.

Definition span (key value text : string) : node :=
  Tag "span" [(key, value)] [NavigableString text].

(** ** Data for the examples, and two claims as they are stated *)

(** A server that times out on the first two requests and then
    answers with the title. *)
Definition slow_server (n : nat) (url : string) : reply :=
  if (n <? 2)%nat then Raises (Timeout "timed out")
  else Response 200 "" [span "id" "sidebar-title" "42 results"].

(** A server that refuses every request. *)
Definition forbidding_server (n : nat) (url : string) : reply :=
  Response 403 "403 Client Error: Forbidden" [].

(** A page whose only counter is the fallback one, and holds blanks. *)
Definition blank_fallback_page : soup :=
  [Tag "html" []
     [Tag "span" [("qaselector", "sidebar-result-counter")]
          [NavigableString "  "]]].

(** A page with the fallback counter only. *)
Definition fallback_page : soup :=
  [Tag "html" []
     [Tag "div" [("id", "sidebar-title")] [NavigableString "not a span"];
      span "qaselector" "sidebar-result-counter" " 7 results "]].

(** A page whose title is empty while the fallback counter is not. *)
Definition empty_title_page : soup :=
  [Tag "html" []
     [Tag "span" [("id", "sidebar-title")] [NavigableString " "; Tag "b" [] []];
      span "qaselector" "sidebar-result-counter" "7 results"]].

Definition three_rows : DataFrame :=
  {| nrows := 3;
     columns := [("url", [Some "http://a"; Some "http://b"; Some "http://c"]);
                 ("name", [Some "a"; None; Some "c"])] |}.

(** A second environment: same file and library, another server and
    another state of the process-wide generator. *)
Definition other_env : Env :=
  {| read_csv := read_csv (env_of three_rows forbidding_server);
     to_csv := fun _ _ => Some (Exception "disk full");
     requests_get := slow_server;
     choice := toy_choice;
     entropy := 1 |}.

(** The server of the examples: every page has the title. *)
Definition title_server (n : nat) (url : string) : reply :=
  Response 200 "" [span "id" "sidebar-title" "42 results"].

(** A server whose pages have neither counter. *)
Definition bare_server (n : nat) (url : string) : reply :=
  Response 200 "" [Tag "html" [] [NavigableString "nothing here"]].

Definition one_row : DataFrame :=
  {| nrows := 1; columns := [("url", [Some "http://a"])] |}.

(** C1 as stated: the [results] cell of a row is populated exactly when
    its URL is not blank. *)
Definition populated_iff_nonblank (urls results : list cell) : Prop :=
  forall i, (i < length urls)%nat ->
            is_Some (cell_at results i)
            <-> truthy (strip (url_of (cell_at urls i))) = true.

Definition two_rows : DataFrame :=
  {| nrows := 2;
     columns := [("name", [Some "first"; Some "second"]);
                 ("url", [None; Some "http://b"])] |}.

(** C4 as stated: the output has the rows of the input, its columns,
    and one more column, [results], after them. *)
Definition appends_results (input output : DataFrame) : Prop :=
  nrows output = nrows input
  /\ exists results, columns output = columns input ++ [("results", results)].

(** A table that went through the program before. *)
Definition scraped_before : DataFrame :=
  {| nrows := 1;
     columns := [("url", [Some "http://a"]); ("results", [Some "12 results"])] |}.

(** A table whose second URL is made of blanks. *)
Definition blank_url_table : DataFrame :=
  {| nrows := 2;
     columns := [("name", [Some "first"; Some "second"]);
                 ("url", [Some "http://a"; Some "   "])] |}.

(** The same, with the second URL missing. *)
Definition missing_url_table : DataFrame :=
  {| nrows := 2;
     columns := [("name", [Some "first"; Some "second"]);
                 ("url", [Some "http://a"; None])] |}.

(** ** More data for the examples *)

(** A server that refuses, then times out, then answers with the title. *)
Definition flaky_server (n : nat) (url : string) : reply :=
  match n with
  | O => Response 403 "403 Client Error: Forbidden" []
  | S O => Raises (Timeout "read timed out")
  | _ => Response 200 "" [span "id" "sidebar-title" "42 results"]
  end.

(** A server that refuses once and times out ever after. *)
Definition dead_server (n : nat) (url : string) : reply :=
  match n with
  | O => Response 403 "403 Client Error: Forbidden" []
  | _ => Raises (Timeout "read timed out")
  end.

(** A server in trouble. *)
Definition failing_server (n : nat) (url : string) : reply :=
  Response 500 "500 Server Error: Internal Server Error" [].

(** No server at all. *)
Definition unreachable_server (n : nat) (url : string) : reply :=
  Raises (RequestException "Connection refused").

(** The payload with its four keys. *)
Definition payload_of (csv_filename output_csv_filename : string)
    (random_sample : bool) (sample_size : Z) : Payload :=
  {| payload_csv_filename := Some csv_filename;
     payload_output_csv_filename := Some output_csv_filename;
     payload_random_sample := Some random_sample;
     payload_sample_size := Some sample_size |}.

(** A table with no [url] column. *)
Definition no_url_table : DataFrame :=
  {| nrows := 1; columns := [("link", [Some "http://a"])] |}.

(** An environment whose disk is full. *)
Definition full_disk_env : Env :=
  {| read_csv := read_csv (env_of two_rows title_server);
     to_csv := fun _ _ => Some (Exception "No space left on device");
     requests_get := title_server;
     choice := toy_choice;
     entropy := 0 |}.


(** The URL texts of a column for which the loop makes requests. *)
Definition visited (urls : list cell) : list string :=
  List.filter (fun u => truthy (strip u)) (List.map url_of urls).

(** * Properties *)

(** ** Runs of composed computations *)
Section Runs.
Context {A B : Type}.
Implicit Types (m : M A) (f : A -> M B) (sent : nat).

Lemma value_bind m f sent :
  value ((m ≫= f) sent) = value (f (value (m sent)) (sent_after (m sent))).
Proof.
  unfold mbind, M_bind, value, sent_after.
  destruct (m sent) as [[a ev1] sent1]; simpl.
  now destruct (f a sent1) as [[b ev2] sent2].
Qed.

Lemma events_bind m f sent :
  events ((m ≫= f) sent)
  = events (m sent) ++ events (f (value (m sent)) (sent_after (m sent))).
Proof.
  unfold mbind, M_bind, value, events, sent_after.
  destruct (m sent) as [[a ev1] sent1]; simpl.
  now destruct (f a sent1) as [[b ev2] sent2].
Qed.

Lemma sent_after_bind m f sent :
  sent_after ((m ≫= f) sent)
  = sent_after (f (value (m sent)) (sent_after (m sent))).
Proof.
  unfold mbind, M_bind, value, sent_after.
  destruct (m sent) as [[a ev1] sent1]; simpl.
  now destruct (f a sent1) as [[b ev2] sent2].
Qed.
End Runs.

(** ** The loop counter

    [iterations] is zero exactly when the loop condition
    [attempt <= max_retries] fails, and one turn uses one up. *)
Lemma iterations_end max_retries attempt :
  max_retries < attempt -> iterations max_retries attempt = O.
Proof. unfold iterations. lia. Qed.

Lemma iterations_turn max_retries attempt :
  attempt <= max_retries ->
  iterations max_retries attempt = S (iterations max_retries (attempt + 1)).
Proof. unfold iterations. lia. Qed.

(** When the loop condition fails the loop is left without a turn. *)
Lemma attempts_loop_end env url max_retries retry_delay attempt :
  max_retries < attempt ->
  attempts env url max_retries retry_delay (iterations max_retries attempt) attempt
  = mret LoopEnd.
Proof. intros H. now rewrite (iterations_end _ _ H). Qed.

(** ** One extraction *)

Ltac run_step :=
  cbn [attempts];
  unfold mbind, mret, M_bind, M_ret, log, sleep, emit, get;
  cbn [app raise_for_status value events sent_after fst snd].

Lemma raise_for_status_2xx status_code msg page :
  200 <= status_code < 300 ->
  raise_for_status (Response status_code msg page) = inl page.
Proof.
  intros H. unfold raise_for_status.
  replace (status_code <? 600) with true by lia.
  replace (400 <=? status_code) with false by lia. reflexivity.
Qed.

Lemma attempts_2xx env url max_retries retry_delay attempt sent status_code msg page :
  attempt <= max_retries ->
  requests_get env sent url = Response status_code msg page ->
  200 <= status_code < 300 ->
  value (attempts env url max_retries retry_delay
                  (iterations max_retries attempt) attempt sent)
  = Return (outcome_of_page page).
Proof.
  intros Hle Hreply Hok. rewrite (iterations_turn _ _ Hle).
  run_step. rewrite Hreply, (raise_for_status_2xx _ _ _ Hok).
  unfold outcome_of_page.
  destruct (find "span" "id" "sidebar-title" page) as [primary|].
  - now destruct (get_text_strip primary).
  - destruct (find "span" "qaselector" "sidebar-result-counter" page) as [fallback|];
      [now destruct (get_text_strip fallback) | reflexivity].
Qed.

(** [find] gives nothing exactly when no tag of the page matches. *)
Lemma find_None name key value page :
  find name key value page = None <->
  (forall n, In n (descendants page) -> matches name key value n = false).
Proof.
  unfold find. split.
  - intros H n Hn. exact (find_none _ _ H n Hn).
  - intros H. induction (descendants page) as [|d ds IH]; [reflexivity|].
    simpl. rewrite (H d (or_introl eq_refl)). apply IH.
    intros n Hn. apply H. now right.
Qed.

(** A [Text] outcome never carries the empty string. *)
Lemma attempts_text_nonempty env url max_retries retry_delay remaining :
  forall attempt sent,
    value (attempts env url max_retries retry_delay remaining attempt sent)
    <> Return (Text "").
Proof.
  induction remaining as [|k IH]; intros attempt sent; [discriminate|].
  run_step.
  destruct (requests_get env sent url) as [status_code msg page|e];
    cbn [raise_for_status].
  - destruct ((400 <=? status_code) && (status_code <? 600)).
    + destruct (bool_decide _ && _); cbn; [|discriminate].
      specialize (IH (attempt + 1) (S sent)).
      now destruct (attempts _ _ _ _ _ _ _) as [[x evs] s'].
    + destruct (find "span" "id" "sidebar-title" page) as [primary|].
      * destruct (get_text_strip primary); cbn; discriminate.
      * destruct (find "span" "qaselector" "sidebar-result-counter" page)
          as [fallback|]; [|cbn; discriminate].
        destruct (get_text_strip fallback); cbn; discriminate.
  - destruct e; cbn; try discriminate.
    + destruct (bool_decide _ && _); cbn; [|discriminate].
      specialize (IH (attempt + 1) (S sent)).
      now destruct (attempts _ _ _ _ _ _ _) as [[x evs] s'].
    + destruct (attempt <? max_retries); cbn; [|discriminate].
      specialize (IH (attempt + 1) (S sent)).
      now destruct (attempts _ _ _ _ _ _ _) as [[x evs] s'].
Qed.

(** While the loop condition holds, a turn of the loop ends in a
    [return]: the statement after the loop is not reached. *)
Lemma attempts_returns env url max_retries retry_delay :
  forall remaining attempt sent,
    remaining = iterations max_retries attempt ->
    attempt <= max_retries ->
    exists o, value (attempts env url max_retries retry_delay remaining attempt sent)
              = Return o.
Proof.
  induction remaining as [|k IH]; intros attempt sent Hrem Hle.
  { unfold iterations in Hrem. lia. }
  assert (Hnext : (attempt <? max_retries) = true ->
                  exists o, value (attempts env url max_retries retry_delay k
                                            (attempt + 1) (S sent)) = Return o).
  { intros Hlt. apply IH; [unfold iterations in *|]; lia. }
  run_step.
  destruct (requests_get env sent url) as [status_code msg page|e];
    cbn [raise_for_status].
  - destruct ((400 <=? status_code) && (status_code <? 600)).
    + destruct (bool_decide _); cbn [andb]; [|cbn; eauto].
      destruct (attempt <? max_retries); [|cbn; eauto].
      destruct (Hnext eq_refl) as [o Ho].
      destruct (attempts _ _ _ _ _ _ _) as [[x evs] s']. cbn in *. eauto.
    + destruct (find "span" "id" "sidebar-title" page) as [primary|].
      * destruct (get_text_strip primary); cbn; eauto.
      * destruct (find "span" "qaselector" "sidebar-result-counter" page)
          as [fallback|]; [|cbn; eauto].
        destruct (get_text_strip fallback); cbn; eauto.
  - destruct e; cbn [str_exception]; try (cbn; eauto; fail).
    + destruct (bool_decide _); cbn [andb]; [|cbn; eauto].
      destruct (attempt <? max_retries); [|cbn; eauto].
      destruct (Hnext eq_refl) as [o Ho].
      destruct (attempts _ _ _ _ _ _ _) as [[x evs] s']. cbn in *. eauto.
    + destruct (attempt <? max_retries); [|cbn; eauto].
      destruct (Hnext eq_refl) as [o Ho].
      destruct (attempts _ _ _ _ _ _ _) as [[x evs] s']. cbn in *. eauto.
Qed.

(** When every reply from [sent] on is a 403, the loop goes through
    all its turns and the last one returns the HTTP error. *)
Lemma attempts_all_403 env url max_retries retry_delay :
  forall n attempt sent,
    iterations max_retries attempt = S n ->
    (forall k, (k <= n)%nat ->
               exists msg page,
                 requests_get env (sent + k)%nat url = Response 403 msg page) ->
    let r := attempts env url max_retries retry_delay (S n) attempt sent in
    value r = Return (FailureDescription
                        ("HTTP Error: 403 (Attempt " +:+ pretty (max_retries + 1)
                         +:+ ")"))
    /\ requested (events r) = replicate (S n) url
    /\ sleeps (events r) = replicate n retry_delay.
Proof.
  induction n as [|n IH]; intros attempt sent Hrem Hall r; subst r.
  - destruct (Hall O (le_n _)) as (msg & page & Hreply).
    rewrite Nat.add_0_r in Hreply.
    assert (attempt = max_retries) as -> by (unfold iterations in Hrem; lia).
    run_step. rewrite Hreply. cbn [raise_for_status].
    replace ((400 <=? 403) && (403 <? 600)) with true by reflexivity.
    rewrite Z.ltb_irrefl, andb_false_r. cbn. auto.
  - destruct (Hall O (Nat.le_0_l _)) as (msg & page & Hreply).
    rewrite Nat.add_0_r in Hreply.
    assert (Hlt : (attempt <? max_retries) = true)
      by (unfold iterations in Hrem; lia).
    specialize (IH (attempt + 1) (S sent)).
    destruct IH as (Hv & Hreq & Hsl).
    { unfold iterations in *. lia. }
    { intros k Hk. destruct (Hall (S k)) as (m' & p' & H'); [lia|].
      rewrite Nat.add_succ_r in H'. eauto. }
    remember (S n) as turns eqn:Hturns.
    run_step. rewrite Hreply. cbn [raise_for_status].
    replace ((400 <=? 403) && (403 <? 600)) with true by reflexivity.
    rewrite Hlt. rewrite bool_decide_eq_true_2 by reflexivity. cbn [andb].
    revert Hv Hreq Hsl.
    destruct (attempts _ _ _ _ _ _ _) as [[x evs] s'].
    cbn. intros -> -> ->. now subst turns.
Qed.

(** C7: when a request times out and attempts remain
    ([attempt < max_retries]) the function sleeps [retry_delay] seconds
    and goes on with the loop at [attempt + 1]; otherwise it returns
    the failure "Request Timeout". *)
Theorem timeout_retries_then_fails env url max_retries retry_delay attempt sent msg :
  attempt <= max_retries ->
  requests_get env sent url = Raises (Timeout msg) ->
  attempts env url max_retries retry_delay (iterations max_retries attempt) attempt sent
  = if attempt <? max_retries then
      let '(exit, evs, sent') :=
        attempts env url max_retries retry_delay
                 (iterations max_retries (attempt + 1)) (attempt + 1) (S sent) in
      (exit,
       [Log INFO ("Processing URL: " +:+ url +:+ " (Attempt: "
                  +:+ pretty (attempt + 1) +:+ " of " +:+ pretty (max_retries + 1));
        Get url;
        Log ERROR ("Request Timeout for " +:+ url +:+ ".");
        Log INFO ("Waiting " +:+ pretty retry_delay
                  +:+ " seconds before retrying due to timeout...");
        Sleep retry_delay] ++ evs,
       sent')
    else
      (Return (FailureDescription "Request Timeout"),
       [Log INFO ("Processing URL: " +:+ url +:+ " (Attempt: "
                  +:+ pretty (attempt + 1) +:+ " of " +:+ pretty (max_retries + 1));
        Get url;
        Log ERROR ("Request Timeout for " +:+ url +:+ ".")],
       S sent).
Proof.
  intros Hle Hreply.
  rewrite (iterations_turn _ _ Hle).
  run_step. rewrite Hreply. run_step.
  destruct (attempt <? max_retries); run_step; [|reflexivity].
  now destruct (attempts _ _ _ _ _ _ _) as [[exit evs] sent'].
Qed.

Lemma timeout_retries_then_fails_witness :
  let env := env_of DataFrame_new slow_server in
  attempts env "http://a" 2 5 (iterations 2 0) 0 0%nat
  = (Return (Text "42 results"),
     [Log INFO "Processing URL: http://a (Attempt: 1 of 3";
      Get "http://a";
      Log ERROR "Request Timeout for http://a.";
      Log INFO "Waiting 5 seconds before retrying due to timeout...";
      Sleep 5;
      Log INFO "Processing URL: http://a (Attempt: 2 of 3";
      Get "http://a";
      Log ERROR "Request Timeout for http://a.";
      Log INFO "Waiting 5 seconds before retrying due to timeout...";
      Sleep 5;
      Log INFO "Processing URL: http://a (Attempt: 3 of 3";
      Get "http://a";
      Log INFO "Successfully extracted: 42 results"],
     3%nat).
Proof.
  intros env.
  rewrite (timeout_retries_then_fails env "http://a" 2 5 0 0%nat "timed out");
    [reflexivity | lia | reflexivity].
Defined.

(** C6: when the first response has status 404, the function returns
    "HTTP Error: 404 (Attempt 1)" at once: one request was made, no
    sleep, whatever the retry budget. *)
Theorem not_found_is_not_retried env url max_retries retry_delay sent msg page :
  0 <= max_retries ->
  requests_get env sent url = Response 404 msg page ->
  let r := extract_value_from_url env url max_retries retry_delay sent in
  value r = FailureDescription "HTTP Error: 404 (Attempt 1)"
  /\ requested (events r) = [url]
  /\ sleeps (events r) = []
  /\ sent_after r = S sent.
Proof.
  intros Hmr Hreply r. subst r. unfold extract_value_from_url.
  rewrite (iterations_turn _ _ Hmr).
  unfold mbind at 1. unfold M_bind at 1. run_step.
  rewrite Hreply. cbn [raise_for_status].
  replace ((400 <=? 404) && (404 <? 600)) with true by reflexivity.
  rewrite bool_decide_eq_false_2 by discriminate.
  cbn. auto.
Qed.

Lemma not_found_is_not_retried_witness :
  let env := env_of DataFrame_new (fun _ _ => Response 404 "404 Client Error" []) in
  let r := extract_value_from_url env "http://a" 2 5 0%nat in
  value r = FailureDescription "HTTP Error: 404 (Attempt 1)"
  /\ requested (events r) = ["http://a"]
  /\ sleeps (events r) = []
  /\ sent_after r = 1%nat.
Proof.
  intros env.
  apply (not_found_is_not_retried env "http://a" 2 5 0%nat "404 Client Error" []);
    [lia | reflexivity].
Defined.

(** C2, as stated, fails: with a 403 on each of the three attempts the
    function does not return "Failed after 3 attempts ...". *)
Lemma forbidden_every_attempt_counterexample :
  value (extract_value_from_url (env_of DataFrame_new forbidding_server)
                                "http://a" 2 5 0%nat)
  <> FailureDescription
       "Failed after 3 attempts (last error was likely 403 or Timeout)".
Proof. vm_compute. discriminate. Qed.

(** C2, amended: with [max_retries >= 0] the loop always ends in a
    [return]; when a 403 is received on every attempt up to and
    including the last, that is "HTTP Error: 403 (Attempt
    <max_retries+1>)", after [max_retries + 1] requests and
    [max_retries] sleeps of [retry_delay] seconds, and not the "Failed
    after ..." string. *)
Theorem forbidden_every_attempt env url max_retries retry_delay sent :
  0 <= max_retries ->
  (forall k, (k <= Z.to_nat max_retries)%nat ->
             exists msg page,
               requests_get env (sent + k)%nat url = Response 403 msg page) ->
  let r := extract_value_from_url env url max_retries retry_delay sent in
  (forall env' sent',
      exists o, value (attempts env' url max_retries retry_delay
                                (iterations max_retries 0) 0 sent') = Return o)
  /\ value r = FailureDescription
                 ("HTTP Error: 403 (Attempt " +:+ pretty (max_retries + 1) +:+ ")")
  /\ value r <> FailureDescription
                  ("Failed after " +:+ pretty (max_retries + 1)
                   +:+ " attempts (last error was likely 403 or Timeout)")
  /\ requested (events r) = replicate (Z.to_nat (max_retries + 1)) url
  /\ sleeps (events r) = replicate (Z.to_nat max_retries) retry_delay.
Proof.
  intros Hmr Hall r.
  assert (Hturns : iterations max_retries 0 = S (Z.to_nat max_retries))
    by (unfold iterations; lia).
  destruct (attempts_all_403 env url max_retries retry_delay
              (Z.to_nat max_retries) 0 sent Hturns Hall) as (Hv & Hreq & Hsl).
  assert (Hvalue : value r = FailureDescription
                     ("HTTP Error: 403 (Attempt " +:+ pretty (max_retries + 1)
                      +:+ ")")).
  { subst r. unfold extract_value_from_url.
    rewrite value_bind, Hturns, Hv. reflexivity. }
  split; [|split; [exact Hvalue|split; [|split]]].
  - intros env' sent'. now apply attempts_returns.
  - rewrite Hvalue. discriminate.
  - subst r. unfold extract_value_from_url.
    rewrite events_bind, Hturns, Hv. unfold requested in *.
    rewrite flat_map_app, Hreq. unfold mret, M_ret.
    cbn [events fst snd flat_map]. rewrite app_nil_r. f_equal. lia.
  - subst r. unfold extract_value_from_url.
    rewrite events_bind, Hturns, Hv. unfold sleeps in *.
    rewrite flat_map_app, Hsl. unfold mret, M_ret.
    cbn [events fst snd flat_map]. now rewrite app_nil_r.
Qed.

Lemma forbidden_every_attempt_witness :
  let r := extract_value_from_url (env_of DataFrame_new forbidding_server)
                                  "http://a" 2 5 0%nat in
  value r = FailureDescription "HTTP Error: 403 (Attempt 3)"
  /\ requested (events r) = ["http://a"; "http://a"; "http://a"]
  /\ sleeps (events r) = [5%N; 5%N].
Proof.
  intros r.
  destruct (forbidden_every_attempt (env_of DataFrame_new forbidding_server)
              "http://a" 2 5 0%nat ltac:(lia)
              ltac:(intros k _; now exists "403 Client Error: Forbidden", []))
    as (_ & Hv & _ & Hreq & Hsl).
  exact (conj Hv (conj Hreq Hsl)).
Defined.

(** C5, as stated, fails: the page holds only the fallback selector
    and the function does not return the [Text] of that tag's text. *)
Lemma fallback_text_counterexample :
  let env := env_of DataFrame_new (fun _ _ => Response 200 "" blank_fallback_page) in
  find "span" "id" "sidebar-title" blank_fallback_page = None
  /\ exists fallback,
      find "span" "qaselector" "sidebar-result-counter" blank_fallback_page
      = Some fallback
      /\ value (extract_value_from_url env "http://a" 2 5 0%nat)
         <> Text (get_text_strip fallback).
Proof.
  intros env. split; [reflexivity|].
  eexists. split; [reflexivity|]. vm_compute. discriminate.
Qed.

(** C5, amended: on a 2xx response the primary selector decides
    whenever it is found; when no tag of the page matches it, the first
    tag matching the fallback selector decides.  The tag's stripped
    text is returned as [Text] when it is non-empty, and the outcome is
    [Absent] when it is empty. *)
Theorem fallback_only_after_primary
    env url max_retries retry_delay attempt sent status_code msg page :
  attempt <= max_retries ->
  requests_get env sent url = Response status_code msg page ->
  200 <= status_code < 300 ->
  let exit := value (attempts env url max_retries retry_delay
                              (iterations max_retries attempt) attempt sent) in
  (forall primary,
      find "span" "id" "sidebar-title" page = Some primary ->
      exit = Return match get_text_strip primary with
                    | EmptyString => Absent
                    | text => Text text
                    end)
  /\ (forall fallback,
         (forall n, In n (descendants page) ->
                    matches "span" "id" "sidebar-title" n = false) ->
         find "span" "qaselector" "sidebar-result-counter" page = Some fallback ->
         exit = Return match get_text_strip fallback with
                       | EmptyString => Absent
                       | text => Text text
                       end).
Proof.
  intros Hle Hreply Hok exit. subst exit.
  rewrite (attempts_2xx _ _ _ _ _ _ _ _ _ Hle Hreply Hok).
  unfold outcome_of_page. split.
  - now intros primary ->.
  - intros fallback Hnone ->.
    now rewrite (proj2 (find_None _ _ _ _) Hnone).
Qed.

Lemma fallback_only_after_primary_witness :
  let env := env_of DataFrame_new (fun _ _ => Response 200 "" fallback_page) in
  value (attempts env "http://a" 2 5 (iterations 2 0) 0 0%nat)
  = Return (Text "7 results").
Proof.
  intros env.
  refine (proj2 (fallback_only_after_primary env "http://a" 2 5 0 0%nat 200 ""
                   fallback_page _ _ _)
                (span "qaselector" "sidebar-result-counter" " 7 results ") _ _).
  - lia.
  - reflexivity.
  - lia.
  - apply find_None. reflexivity.
  - reflexivity.
Defined.

(** C10: on a 2xx response whose page has the primary tag with an
    empty stripped text the outcome is [Absent], whatever the fallback
    selector would find; and no call returns [Text ""]. *)
Theorem empty_title_is_absent :
  (forall env url max_retries retry_delay attempt sent status_code msg page primary,
      attempt <= max_retries ->
      requests_get env sent url = Response status_code msg page ->
      200 <= status_code < 300 ->
      find "span" "id" "sidebar-title" page = Some primary ->
      get_text_strip primary = "" ->
      value (attempts env url max_retries retry_delay
                      (iterations max_retries attempt) attempt sent)
      = Return Absent)
  /\ (forall env url max_retries retry_delay sent,
         value (extract_value_from_url env url max_retries retry_delay sent)
         <> Text "").
Proof.
  split.
  - intros env url max_retries retry_delay attempt sent status_code msg page primary
           Hle Hreply Hok Hfind Hempty.
    rewrite (attempts_2xx _ _ _ _ _ _ _ _ _ Hle Hreply Hok).
    unfold outcome_of_page. now rewrite Hfind, Hempty.
  - intros env url max_retries retry_delay sent. unfold extract_value_from_url.
    rewrite value_bind.
    pose proof (attempts_text_nonempty env url max_retries retry_delay
                  (iterations max_retries 0) 0 sent) as Hne.
    destruct (value (attempts _ _ _ _ _ _ _)) as [o|]; cbn; [|discriminate].
    congruence.
Qed.

Lemma empty_title_is_absent_witness :
  let env := env_of DataFrame_new (fun _ _ => Response 200 "" empty_title_page) in
  value (attempts env "http://a" 2 5 (iterations 2 0) 0 0%nat) = Return Absent.
Proof.
  intros env.
  refine (proj1 empty_title_is_absent env "http://a" 2 5%N 0 0%nat 200 ""
                empty_title_page
                (Tag "span" [("id", "sidebar-title")]
                     [NavigableString " "; Tag "b" [] []]) _ _ _ _ _).
  - lia.
  - reflexivity.
  - lia.
  - reflexivity.
  - reflexivity.
Defined.

(** ** Columns *)

Lemma alter_column_id name cols : alter_column (fun col => col) name cols = cols.
Proof.
  unfold alter_column. induction cols as [|[k col] cols IH]; [reflexivity|].
  cbn [List.map fst snd]. rewrite IH. now destruct (String.eqb k name).
Qed.

Lemma alter_column_compose f g name cols :
  alter_column g name (alter_column f name cols)
  = alter_column (fun col => g (f col)) name cols.
Proof.
  unfold alter_column. rewrite List.map_map. apply List.map_ext.
  intros [k col]. cbn [fst snd].
  destruct (String.eqb k name) eqn:E; cbn [fst snd]; now rewrite E.
Qed.

Lemma alter_column_absent f name cols :
  getitem_columns cols name = None -> alter_column f name cols = cols.
Proof.
  unfold alter_column. induction cols as [|[k col] cols IH]; [reflexivity|].
  cbn [getitem_columns List.map fst snd].
  destruct (String.eqb k name); [discriminate|].
  intros H. now rewrite (IH H).
Qed.

Lemma alter_column_app f name cols cols' :
  alter_column f name (cols ++ cols')
  = alter_column f name cols ++ alter_column f name cols'.
Proof. apply List.map_app. Qed.

Lemma getitem_alter f name cols :
  getitem_columns (alter_column f name cols) name
  = f <$> getitem_columns cols name.
Proof.
  unfold alter_column. induction cols as [|[k col] cols IH]; [reflexivity|].
  cbn [getitem_columns List.map fst snd].
  destruct (String.eqb k name) eqn:E; cbn [getitem_columns]; now rewrite E.
Qed.

Lemma getitem_alter_other f name name' cols :
  name' <> name ->
  getitem_columns (alter_column f name cols) name' = getitem_columns cols name'.
Proof.
  intros Hne. unfold alter_column.
  induction cols as [|[k col] cols IH]; [reflexivity|].
  cbn [getitem_columns List.map fst snd].
  destruct (String.eqb k name) eqn:E; cbn [getitem_columns];
    destruct (String.eqb k name') eqn:E'; try reflexivity; try exact IH.
  apply String.eqb_eq in E, E'. congruence.
Qed.

Lemma getitem_app cols cols' name :
  getitem_columns (cols ++ cols') name
  = match getitem_columns cols name with
    | Some col => Some col
    | None => getitem_columns cols' name
    end.
Proof.
  induction cols as [|[k col] cols IH]; [reflexivity|].
  cbn [getitem_columns app]. now destruct (String.eqb k name).
Qed.

(** The cell a row holds for [name] is the cell of that column. *)
Lemma row_get_row_at df i name :
  row_get (row_at df i) name
  = match getitem df name with
    | Some col => cell_at col i
    | None => None
    end.
Proof.
  unfold row_at, getitem. induction (columns df) as [|[k col] cols IH];
    [reflexivity|].
  cbn [List.map row_get getitem_columns fst snd].
  now destruct (String.eqb k name).
Qed.

(** The table after [df['results'] = None], column by column. *)
Lemma getitem_setitem_same df name value :
  getitem (setitem df name value) name = Some (replicate (nrows df) value).
Proof.
  unfold setitem, getitem. cbn [columns].
  destruct (getitem_columns (columns df) name) as [col|] eqn:E; cbn [columns].
  - now rewrite getitem_alter, E.
  - rewrite getitem_app, E. cbn [getitem_columns]. now rewrite String.eqb_refl.
Qed.

Lemma getitem_setitem_other df name name' value :
  name' <> name -> getitem (setitem df name value) name' = getitem df name'.
Proof.
  intros Hne. unfold setitem, getitem. cbn [columns].
  destruct (getitem_columns (columns df) name) as [col|] eqn:E; cbn [columns].
  - now apply getitem_alter_other.
  - rewrite getitem_app. destruct (getitem_columns (columns df) name');
      [reflexivity|].
    cbn [getitem_columns]. destruct (String.eqb name name') eqn:E'; [|reflexivity].
    apply String.eqb_eq in E'. congruence.
Qed.

(** ** The loop over the rows *)

(** The loop changes the table in its [results] column only, by a
    function [g] of that column which keeps its length, leaves the
    cells of the rows it does not visit and stores in the cell of each
    visited row what [stored] says. *)
Lemma rows_loop_results env total (rw : nat -> row) :
  forall m k made df sent,
  exists g : list cell -> list cell,
    value (rows_loop env total (List.map (fun i => (i, rw i)) (seq k m)) made df sent)
    = {| nrows := nrows df; columns := alter_column g "results" (columns df) |}
    /\ forall col : list cell,
        length (g col) = length col
        /\ (forall j, (j < k \/ k + m <= j)%nat -> g col !! j = col !! j)
        /\ (forall j old, (k <= j < k + m)%nat -> col !! j = Some old ->
                          exists new, g col !! j = Some new
                                      /\ stored env (row_get (rw j) "url") old new).
Proof.
  induction m as [|m IH]; intros k made df sent.
  - exists (fun col => col). split.
    + cbn. rewrite alter_column_id. now destruct df.
    + intros col. split; [reflexivity|]. split; [reflexivity|]. lia.
  - cbn [seq List.map rows_loop]. rewrite value_bind.
    destruct (truthy (strip (url_of (row_get (rw k) "url")))) eqn:Hurl.
    + rewrite value_bind, value_bind.
      match goal with
      | |- context [rows_loop env total _ ?made' ?df' ?sent'] =>
          destruct (IH (S k) made' df' sent') as (g & Hvalue & Hg)
      end.
      match goal with
      | |- context [at_set df k "results" ?v] =>
          exists (fun col => g (<[k := v]> col)); set (new := v) in *
      end.
      split.
      * rewrite Hvalue. unfold at_set. cbn [nrows columns].
        now rewrite alter_column_compose.
      * intros col. destruct (Hg (<[k := new]> col)) as (Hlen & Hout & Hin).
        split; [now rewrite Hlen, length_insert|]. split.
        -- intros j Hj. rewrite Hout by lia.
           apply list_lookup_insert_ne. lia.
        -- intros j old Hj Hold.
           destruct (decide (j = k)) as [->|Hne].
           ++ exists new. split.
              ** rewrite Hout by lia. apply list_lookup_insert_eq.
                 now apply lookup_lt_Some in Hold.
              ** unfold stored. rewrite Hurl. subst new. eauto.
           ++ apply (Hin j old); [lia|].
              rewrite list_lookup_insert_ne by lia. exact Hold.
    + rewrite value_bind.
      match goal with
      | |- context [rows_loop env total _ ?made' ?df' ?sent'] =>
          destruct (IH (S k) made' df' sent') as (g & Hvalue & Hg)
      end.
      exists g. split; [exact Hvalue|].
      intros col. destruct (Hg col) as (Hlen & Hout & Hin).
      split; [exact Hlen|]. split.
      * intros j Hj. apply Hout. lia.
      * intros j old Hj Hold.
        destruct (decide (j = k)) as [->|Hne].
        -- exists old. split; [rewrite Hout by lia; exact Hold|].
           unfold stored. now rewrite Hurl.
        -- apply (Hin j old); [lia|exact Hold].
Qed.

(** ** What the parts of a run emit *)

Lemma written_app evs evs' : written (evs ++ evs') = written evs ++ written evs'.
Proof. apply flat_map_app. Qed.

Lemma requested_app evs evs' :
  requested (evs ++ evs') = requested evs ++ requested evs'.
Proof. apply flat_map_app. Qed.

Lemma errors_app evs evs' : errors (evs ++ evs') = errors evs ++ errors evs'.
Proof. apply flat_map_app. Qed.

(** Loading makes no request, writes nothing, does not sleep and logs
    no error. *)
Lemma import_file_quiet env csv_filename random_sample sample_size sent :
  let r := import_file env csv_filename random_sample sample_size sent in
  written (events r) = [] /\ requested (events r) = [] /\ sleeps (events r) = []
  /\ errors (events r) = [] /\ sent_after r = sent.
Proof.
  unfold import_file.
  destruct (read_csv env csv_filename) as [df|e].
  - destruct random_sample; cbn [negb]; [|cbn; auto].
    destruct (DataFrame_sample env df sample_size (Some 42)) as [sampled|e];
      [cbn; auto|].
    destruct e; cbn; auto.
  - destruct e; cbn; auto.
Qed.

(** An extraction writes no file. *)
Lemma attempts_no_write env url max_retries retry_delay remaining :
  forall attempt sent,
    written (events (attempts env url max_retries retry_delay remaining attempt sent))
    = [].
Proof.
  induction remaining as [|k IH]; intros attempt sent; [reflexivity|].
  pose proof (IH (attempt + 1) (S sent)) as Hnext.
  run_step.
  destruct (requests_get env sent url) as [status_code msg page|e];
    cbn [raise_for_status].
  - destruct ((400 <=? status_code) && (status_code <? 600)).
    + destruct (bool_decide _ && _); [|reflexivity].
      now destruct (attempts _ _ _ _ _ _ _) as [[x evs] s'].
    + destruct (find "span" "id" "sidebar-title" page) as [primary|].
      * now destruct (get_text_strip primary).
      * destruct (find "span" "qaselector" "sidebar-result-counter" page)
          as [fallback|]; [|reflexivity].
        now destruct (get_text_strip fallback).
  - destruct e; try reflexivity.
    + destruct (bool_decide _ && _); [|reflexivity].
      now destruct (attempts _ _ _ _ _ _ _) as [[x evs] s'].
    + destruct (attempt <? max_retries); [|reflexivity].
      now destruct (attempts _ _ _ _ _ _ _) as [[x evs] s'].
Qed.

Lemma extract_no_write env url max_retries retry_delay sent :
  written (events (extract_value_from_url env url max_retries retry_delay sent)) = [].
Proof.
  unfold extract_value_from_url.
  rewrite events_bind, written_app, attempts_no_write.
  now destruct (value (attempts _ _ _ _ _ _ _)).
Qed.

Lemma rows_loop_no_write env total :
  forall rows made df sent,
    written (events (rows_loop env total rows made df sent)) = [].
Proof.
  induction rows as [|[index r] rows IH]; intros made df sent; [reflexivity|].
  cbn [rows_loop]. rewrite events_bind, written_app.
  destruct (truthy (strip (url_of (row_get r "url")))).
  - rewrite events_bind, written_app, extract_no_write.
    rewrite events_bind, written_app, IH.
    now destruct (_ <? _)%nat.
  - now rewrite events_bind, written_app, IH.
Qed.

(** C8: when the loaded table is empty, [process_urls] returns without
    raising; it has handed no table to [to_csv], made no request, and
    logged the condition as an error. *)
Theorem empty_table_aborts
    env csv_filename output_csv_filename random_sample sample_size sent df :
  value (import_file env csv_filename random_sample sample_size sent) = inl df ->
  empty df = true ->
  let r := process_urls env csv_filename output_csv_filename random_sample
                        sample_size sent in
  value r = Returned
  /\ written (events r) = []
  /\ requested (events r) = []
  /\ errors (events r) = ["DataFrame is empty, exiting process_urls."]
  /\ sent_after r = sent.
Proof.
  intros Hload Hempty r. subst r. unfold process_urls.
  destruct (import_file_quiet env csv_filename random_sample sample_size sent)
    as (Hw & Hr & _ & He & Hs).
  rewrite value_bind, events_bind, sent_after_bind, Hload, Hempty, Hs.
  rewrite written_app, requested_app, errors_app, Hw, Hr, He.
  cbn. auto.
Qed.

Lemma empty_table_aborts_witness :
  let env := env_of DataFrame_new forbidding_server in
  let r := process_urls env "missing.csv" "out.csv" false 100 0%nat in
  value r = Returned
  /\ written (events r) = []
  /\ requested (events r) = []
  /\ errors (events r) = ["DataFrame is empty, exiting process_urls."]
  /\ sent_after r = 0%nat.
Proof.
  intros env.
  apply (empty_table_aborts env "missing.csv" "out.csv" false 100 0%nat
                            DataFrame_new); reflexivity.
Defined.

(** C9: two runs of [import_file] with sampling on, on the same file
    contents and with the same sample size, load the same table (the
    same rows, in the same order) and log the same, whatever else
    differs between the runs: the state of the process-wide generator,
    the server, the files written. *)
Theorem sampling_is_reproducible env1 env2 csv_filename sample_size sent1 sent2 :
  read_csv env1 csv_filename = read_csv env2 csv_filename ->
  choice env1 = choice env2 ->
  let r1 := import_file env1 csv_filename true sample_size sent1 in
  let r2 := import_file env2 csv_filename true sample_size sent2 in
  value r1 = value r2 /\ events r1 = events r2.
Proof.
  intros Hfile Hchoice r1 r2. subst r1 r2.
  unfold import_file, DataFrame_sample. rewrite Hfile, Hchoice.
  destruct (read_csv env2 csv_filename) as [df|e]; cbn [negb].
  - destruct (sample_size <? 0); [now cbn|].
    destruct (Z.of_nat (nrows df) <? sample_size); [now cbn|].
    destruct (take_rows _ _); now cbn.
  - destruct e; now cbn.
Qed.

Lemma sampling_is_reproducible_witness :
  let r1 := import_file (env_of three_rows forbidding_server) "test.csv" true 2 0%nat in
  let r2 := import_file other_env "test.csv" true 2 7%nat in
  value r1 = value r2 /\ events r1 = events r2.
Proof.
  apply (sampling_is_reproducible (env_of three_rows forbidding_server) other_env
                                  "test.csv" 2 0%nat 7%nat); reflexivity.
Defined.

(** Without the seed the sample would follow the process-wide
    generator, and differ between these two environments. *)
Example unseeded_sample_differs :
  DataFrame_sample (env_of three_rows forbidding_server) three_rows 2 None
  <> DataFrame_sample other_env three_rows 2 None.
Proof. vm_compute. discriminate. Qed.

(** ** The whole run *)

Lemma alter_results_of_setitem df g :
  alter_column g "results" (columns (setitem df "results" None))
  = with_results (columns df) (g (replicate (nrows df) None)).
Proof.
  unfold setitem, with_results, getitem. cbn [columns].
  destruct (getitem_columns (columns df) "results") as [col|] eqn:E.
  - apply alter_column_compose.
  - rewrite alter_column_app, (alter_column_absent _ _ _ E). reflexivity.
Qed.

(** A loaded table that is not empty and has a [url] column is
    processed to the end and handed to [to_csv] once, with a [results]
    column that has a cell for every row, filled as [stored] says. *)
Lemma process_urls_writes
    env csv_filename output_csv_filename random_sample sample_size sent df urls :
  value (import_file env csv_filename random_sample sample_size sent) = inl df ->
  empty df = false ->
  getitem df "url" = Some urls ->
  let r := process_urls env csv_filename output_csv_filename random_sample
                        sample_size sent in
  value r = Returned
  /\ exists results : list cell,
      length results = nrows df
      /\ written (events r)
         = [(output_csv_filename,
             {| nrows := nrows df; columns := with_results (columns df) results |})]
      /\ forall i, (i < nrows df)%nat ->
                   exists new, results !! i = Some new
                               /\ stored env (cell_at urls i) None new.
Proof.
  intros Hload Hempty Hurl r. subst r. unfold process_urls.
  destruct (import_file_quiet env csv_filename random_sample sample_size sent)
    as (Hw & _).
  rewrite value_bind, events_bind, written_app, Hw, Hload, Hempty.
  assert (Hurl' : getitem (setitem df "results" None) "url" = Some urls)
    by (rewrite getitem_setitem_other by discriminate; exact Hurl).
  rewrite Hurl'. cbn [app].
  set (df1 := setitem df "results" None) in *.
  set (sent1 := sent_after _).
  destruct (rows_loop_results env (count urls) (row_at df1) (nrows df1) 0 0 df1 sent1)
    as (g & Hvalue & Hg).
  fold (iterrows df1) in Hvalue.
  destruct (Hg (replicate (nrows df) None)) as (Hlen & _ & Hin).
  split.
  { rewrite !value_bind. reflexivity. }
  exists (g (replicate (nrows df) None)). split; [|split].
  - now rewrite Hlen, length_replicate.
  - rewrite events_bind, written_app, rows_loop_no_write, Hvalue. cbn [app].
    generalize (sent_after (rows_loop env (count urls) (iterrows df1) 0 df1 sent1)).
    intros sent2.
    unfold print_to_file, mbind, M_bind, mret, M_ret, log, emit.
    destruct (to_csv env output_csv_filename _);
      cbn [events fst snd written flat_map app];
      unfold df1; now rewrite alter_results_of_setitem.
  - intros i Hi.
    destruct (Hin i None) as (new & Hnew & Hstored).
    + change (nrows df1) with (nrows df). lia.
    + now apply lookup_replicate_2.
    + exists new. split; [exact Hnew|].
      rewrite row_get_row_at, Hurl' in Hstored. exact Hstored.
Qed.

Lemma getitem_with_results_same cols results :
  getitem_columns (with_results cols results) "results" = Some results.
Proof.
  unfold with_results.
  destruct (getitem_columns cols "results") as [col|] eqn:E.
  - now rewrite getitem_alter, E.
  - now rewrite getitem_app, E.
Qed.

Lemma getitem_with_results_other cols results name :
  name <> "results" ->
  getitem_columns (with_results cols results) name = getitem_columns cols name.
Proof.
  intros Hne. unfold with_results.
  destruct (getitem_columns cols "results") as [col|] eqn:E.
  - now apply getitem_alter_other.
  - rewrite getitem_app. destruct (getitem_columns cols name); [reflexivity|].
    cbn [getitem_columns]. destruct (String.eqb "results" name) eqn:E';
      [|reflexivity].
    apply String.eqb_eq in E'. congruence.
Qed.

(** C1, as stated, fails: the URL of the row is not blank, the page is
    fetched and has no counter, and the [results] cell is null. *)
Lemma results_follow_extraction_counterexample :
  let r := process_urls (env_of one_row bare_server) "test.csv" "out.csv"
                        false 100 0%nat in
  exists final urls results,
    written (events r) = [("out.csv", final)]
    /\ getitem final "url" = Some urls
    /\ getitem final "results" = Some results
    /\ ~ populated_iff_nonblank urls results.
Proof.
  intros r.
  exists {| nrows := 1;
            columns := [("url", [Some "http://a"]); ("results", [None])] |},
         [Some "http://a"], [None].
  split; [reflexivity|]. split; [reflexivity|]. split; [reflexivity|].
  intros H. destruct (H O (Nat.lt_0_succ _)) as [_ Hpop].
  destruct (Hpop eq_refl) as [v Hv]. discriminate Hv.
Qed.

(** C1, amended: in the table written, a row with a blank URL has a
    null [results] cell, and a row with a non-blank URL has the value
    returned by [extract_value_from_url] for that URL (with
    [max_retries = 2], [retry_delay = 5]): a string for a [Text] or a
    [FailureDescription], null for [Absent].  So a populated cell
    implies a non-blank URL, and a non-blank URL gives a populated cell
    unless the outcome is [Absent]. *)
Theorem results_follow_extraction
    env csv_filename output_csv_filename random_sample sample_size sent df urls :
  value (import_file env csv_filename random_sample sample_size sent) = inl df ->
  empty df = false ->
  getitem df "url" = Some urls ->
  let r := process_urls env csv_filename output_csv_filename random_sample
                        sample_size sent in
  exists final results,
    written (events r) = [(output_csv_filename, final)]
    /\ getitem final "url" = Some urls
    /\ getitem final "results" = Some results
    /\ length results = nrows df
    /\ forall i, (i < nrows df)%nat ->
         let url := url_of (cell_at urls i) in
         (if truthy (strip url) then
            exists sent',
              results !! i
              = Some (py_value (value (extract_value_from_url env url 2 5 sent')))
          else results !! i = Some None)
         /\ (is_Some (cell_at results i) -> truthy (strip url) = true).
Proof.
  intros Hload Hempty Hurl r.
  destruct (process_urls_writes env csv_filename output_csv_filename random_sample
              sample_size sent df urls Hload Hempty Hurl)
    as (_ & results & Hlen & Hwritten & Hrows).
  exists {| nrows := nrows df; columns := with_results (columns df) results |}, results.
  split; [exact Hwritten|]. split; [|split; [|split; [exact Hlen|]]].
  - unfold getitem. cbn [columns].
    rewrite getitem_with_results_other by discriminate. exact Hurl.
  - apply getitem_with_results_same.
  - intros i Hi url. subst url.
    destruct (Hrows i Hi) as (new & Hnew & Hstored). unfold stored in Hstored.
    unfold cell_at at 3. rewrite Hnew.
    destruct (truthy (strip (url_of (cell_at urls i)))).
    + destruct Hstored as [sent' ->]. split; [now exists sent'|reflexivity].
    + subst new. split; [exact Hnew|]. intros [v Hv]. discriminate Hv.
Qed.

Lemma results_follow_extraction_witness :
  let r := process_urls (env_of two_rows title_server) "test.csv" "out.csv"
                        false 100 0%nat in
  exists final results,
    written (events r) = [("out.csv", final)]
    /\ getitem final "url" = Some [None; Some "http://b"]
    /\ getitem final "results" = Some results
    /\ length results = 2%nat
    /\ forall i, (i < 2)%nat ->
         let url := url_of (cell_at [None; Some "http://b"] i) in
         (if truthy (strip url) then
            exists sent',
              results !! i
              = Some (py_value (value (extract_value_from_url
                                         (env_of two_rows title_server) url 2 5 sent')))
          else results !! i = Some None)
         /\ (is_Some (cell_at results i) -> truthy (strip url) = true).
Proof.
  exact (results_follow_extraction (env_of two_rows title_server) "test.csv" "out.csv"
           false 100 0%nat two_rows [None; Some "http://b"]
           eq_refl eq_refl eq_refl).
Defined.

(** C4, as stated, fails on a table that has a [results] column: no
    column is added, and the old values are replaced. *)
Lemma output_appends_results_counterexample :
  let r := process_urls (env_of scraped_before title_server) "test.csv" "out.csv"
                        false 100 0%nat in
  exists final,
    written (events r) = [("out.csv", final)]
    /\ ~ appends_results scraped_before final.
Proof.
  intros r.
  exists {| nrows := 1;
            columns := [("url", [Some "http://a"]);
                        ("results", [Some "42 results"])] |}.
  split; [reflexivity|].
  intros [_ [results H]]. apply (f_equal length) in H. discriminate H.
Qed.

(** C4, amended: for a loaded table that is not empty and has a [url]
    column, the run ends normally and writes one table, with the row
    count of the input and a [results] column that has one cell for each
    row.  When the input has no [results] column, the table written is
    the input's columns, unchanged and in order, with the [results]
    column appended; when it has one, that column is replaced where it
    stands and no column is added. *)
Theorem output_appends_results
    env csv_filename output_csv_filename random_sample sample_size sent df urls :
  value (import_file env csv_filename random_sample sample_size sent) = inl df ->
  empty df = false ->
  getitem df "url" = Some urls ->
  let r := process_urls env csv_filename output_csv_filename random_sample
                        sample_size sent in
  value r = Returned
  /\ exists results final,
      written (events r) = [(output_csv_filename, final)]
      /\ nrows final = nrows df
      /\ length results = nrows df
      /\ (getitem df "results" = None ->
          columns final = columns df ++ [("results", results)])
      /\ (is_Some (getitem df "results") ->
          columns final = alter_column (fun _ => results) "results" (columns df)).
Proof.
  intros Hload Hempty Hurl r.
  destruct (process_urls_writes env csv_filename output_csv_filename random_sample
              sample_size sent df urls Hload Hempty Hurl)
    as (Hreturned & results & Hlen & Hwritten & _).
  split; [exact Hreturned|].
  exists results,
         {| nrows := nrows df; columns := with_results (columns df) results |}.
  split; [exact Hwritten|]. split; [reflexivity|]. split; [exact Hlen|].
  unfold with_results, getitem. cbn [columns]. split.
  - now intros ->.
  - now intros [old ->].
Qed.

Lemma output_appends_results_witness :
  let r := process_urls (env_of two_rows title_server) "test.csv" "out.csv"
                        false 100 0%nat in
  value r = Returned
  /\ exists results final,
      written (events r) = [("out.csv", final)]
      /\ nrows final = 2%nat
      /\ length results = 2%nat
      /\ columns final = [("name", [Some "first"; Some "second"]);
                          ("url", [None; Some "http://b"]);
                          ("results", results)].
Proof.
  destruct (output_appends_results (env_of two_rows title_server) "test.csv"
              "out.csv" false 100 0%nat two_rows [None; Some "http://b"]
              eq_refl eq_refl eq_refl)
    as (Hreturned & results & final & Hwritten & Hrows & Hlen & Hnew & _).
  split; [exact Hreturned|]. exists results, final.
  split; [exact Hwritten|]. split; [exact Hrows|]. split; [exact Hlen|].
  exact (Hnew eq_refl).
Defined.

(** ** The throttle *)

Lemma existsb_filter {A} (f : A -> bool) (l : list A) :
  existsb f l = (0 <? length (List.filter f l))%nat.
Proof.
  induction l as [|x l IH]; [reflexivity|].
  cbn [existsb List.filter]. destruct (f x); [reflexivity|exact IH].
Qed.

(** When [total_requests_to_make] is the number of requests the loop
    will make in all, the counters of [rows_loop] decide as the
    specification says. *)
Lemma rows_loop_throttled env total :
  forall rows made df sent,
    total = (made + length (List.filter nonblank rows))%nat ->
    rows_loop env total rows made df sent = throttled_rows env rows df sent.
Proof.
  induction rows as [|[index r] rows IH]; intros made df sent Htotal;
    [reflexivity|].
  cbn [rows_loop throttled_rows]. unfold mbind, M_bind.
  destruct (log INFO _ sent) as [[[] ev0] sent0].
  cbn [List.filter] in Htotal. unfold nonblank at 1 in Htotal. cbn [snd] in Htotal.
  destruct (truthy (strip (url_of (row_get r "url")))).
  - destruct (extract_value_from_url env _ 2 5 sent0) as [[o ev1] sent1].
    cbn [length] in Htotal.
    replace (S made <? total)%nat with (existsb nonblank rows)
      by (rewrite existsb_filter; subst total;
          destruct (List.filter nonblank rows); cbn [length];
          [symmetry; apply Nat.ltb_ge | symmetry; apply Nat.ltb_lt]; lia).
    destruct ((if existsb nonblank rows then sleep 2 else mret tt) sent1)
      as [[[] ev2] sent2].
    rewrite (IH (S made)) by lia. reflexivity.
  - destruct (log INFO _ sent0) as [[[] ev1] sent1].
    now rewrite (IH made).
Qed.

(** The number of cells [count] counts is the number of requests the
    loop makes when no URL cell holds an empty or all-blank text. *)
Lemma filter_seq_length {A} (f : nat -> bool) (g : A -> bool) (l : list A) :
  forall k,
    (forall i x, l !! i = Some x -> f (k + i)%nat = g x) ->
    length (List.filter f (seq k (length l))) = length (List.filter g l).
Proof.
  induction l as [|x l IH]; intros k Hfg; [reflexivity|].
  cbn [length seq List.filter].
  rewrite <- (Hfg O x eq_refl), Nat.add_0_r.
  assert (Hrest : length (List.filter f (seq (S k) (length l)))
                  = length (List.filter g l)).
  { apply IH. intros i y Hy. rewrite <- (Hfg (S i) y Hy). f_equal. lia. }
  destruct (f k); cbn [length]; now rewrite Hrest.
Qed.

Lemma count_is_nonblank_rows df urls :
  getitem df "url" = Some urls ->
  length urls = nrows df ->
  (forall i text, urls !! i = Some (Some text) -> truthy (strip text) = true) ->
  count urls = length (List.filter nonblank (iterrows df)).
Proof.
  intros Hurl Hlen Hclean. unfold count, iterrows.
  rewrite <- Hlen.
  set (filled := fun c : cell => match c with Some _ => true | None => false end).
  assert (Hmap : forall l,
             List.filter nonblank (List.map (fun i => (i, row_at df i)) l)
             = List.map (fun i => (i, row_at df i))
                        (List.filter (fun i => nonblank (i, row_at df i)) l)).
  { induction l as [|i l IH]; [reflexivity|].
    cbn [List.map List.filter]. rewrite IH.
    now destruct (nonblank (i, row_at df i)). }
  rewrite Hmap, length_map. symmetry.
  apply (filter_seq_length (fun i => nonblank (i, row_at df i)) filled urls O).
  intros i c Hc. unfold nonblank. cbn [snd Nat.add].
  rewrite row_get_row_at, Hurl. unfold cell_at. rewrite Hc.
  destruct c as [text|]; [|reflexivity].
  exact (Hclean i text Hc).
Qed.

(** X16: so, on a well-formed table none of whose URL cells is an empty
    or all-blank text, the loop of [process_urls] throttles as
    specified. *)
Lemma throttle_as_specified env df urls sent :
  getitem df "url" = Some urls ->
  length urls = nrows df ->
  (forall i text, urls !! i = Some (Some text) -> truthy (strip text) = true) ->
  rows_loop env (count urls) (iterrows df) 0 df sent
  = throttled_rows env (iterrows df) df sent.
Proof.
  intros Hurl Hlen Hclean. apply rows_loop_throttled.
  now rewrite (count_is_nonblank_rows df urls Hurl Hlen Hclean).
Qed.

(** C3 fails on the code: the row with the blank URL is skipped, yet it
    was counted in [total_requests_to_make], so the only request of the
    run is followed by the 2-second sleep, which the throttle as
    specified does not make. *)
Theorem sleep_after_last_request :
  let env := env_of blank_url_table title_server in
  let r := process_urls env "test.csv" "out.csv" false 100 0%nat in
  let df := setitem blank_url_table "results" None in
  requested (events r) = ["http://a"]
  /\ sleeps (after_last_request (events r)) = [2%N]
  /\ sleeps (events (throttled_rows env (iterrows df) df 0%nat)) = [].
Proof. split; [reflexivity|]. split; reflexivity. Qed.

(** A missing URL is not counted, and then no sleep follows. *)
Example no_sleep_after_last_request :
  let r := process_urls (env_of missing_url_table title_server) "test.csv" "out.csv"
                        false 100 0%nat in
  requested (events r) = ["http://a"]
  /\ sleeps (after_last_request (events r)) = [].
Proof. split; reflexivity. Qed.

(** * Further properties *)

(** ** The turns of the retry loop *)

(** One turn: either the reply is transient and attempts are left,
    and the turn is a request, a sleep and the rest of the loop; or the
    turn ends the call after its request. *)
Lemma attempts_turn env url max_retries retry_delay remaining attempt sent :
  let reply := requests_get env sent url in
  let r := attempts env url max_retries retry_delay (S remaining) attempt sent in
  let r' := attempts env url max_retries retry_delay remaining (attempt + 1) (S sent) in
  if transient reply && (attempt <? max_retries) then
    value r = value r'
    /\ requested (events r) = url :: requested (events r')
    /\ sleeps (events r) = retry_delay :: sleeps (events r')
    /\ sent_after r = sent_after r'
  else
    value r = Return (attempt_outcome attempt reply)
    /\ requested (events r) = [url]
    /\ sleeps (events r) = []
    /\ sent_after r = S sent.
Proof.
  intros reply r r'. subst reply r r'. unfold transient, attempt_outcome.
  run_step.
  destruct (requests_get env sent url) as [status_code msg page|e];
    cbn [raise_for_status].
  - destruct ((400 <=? status_code) && (status_code <? 600)).
    + destruct (bool_decide (Some status_code = Some 403)); cbn [andb];
        [|cbn; auto].
      destruct (attempt <? max_retries); [|cbn; auto].
      now destruct (attempts _ _ _ _ _ _ _) as [[x evs] s'].
    + cbn [andb]. unfold outcome_of_page.
      destruct (find "span" "id" "sidebar-title" page) as [primary|].
      * destruct (get_text_strip primary); cbn; auto.
      * destruct (find "span" "qaselector" "sidebar-result-counter" page)
          as [fallback|]; [|cbn; auto].
        destruct (get_text_strip fallback); cbn; auto.
  - destruct e; cbn [andb]; try (cbn; auto; fail).
    + destruct (bool_decide (response_status = Some 403)); cbn [andb];
        [|cbn; auto].
      destruct (attempt <? max_retries); [|cbn; auto].
      now destruct (attempts _ _ _ _ _ _ _) as [[x evs] s'].
    + destruct (attempt <? max_retries); [|cbn; auto].
      now destruct (attempts _ _ _ _ _ _ _) as [[x evs] s'].
Qed.

(** [extract_value_from_url] is its loop, with the string of line 129
    when the loop ends without a [return]. *)
Lemma extract_run env url max_retries retry_delay sent :
  let a := attempts env url max_retries retry_delay (iterations max_retries 0) 0 sent in
  let r := extract_value_from_url env url max_retries retry_delay sent in
  value r = match value a with
            | Return o => o
            | LoopEnd =>
                FailureDescription
                  ("Failed after " +:+ pretty (max_retries + 1)
                   +:+ " attempts (last error was likely 403 or Timeout)")
            end
  /\ events r = events a
  /\ sent_after r = sent_after a.
Proof.
  intros a r. subst a r. unfold extract_value_from_url.
  rewrite value_bind, events_bind, sent_after_bind.
  destruct (value (attempts _ _ _ _ _ _ _)); cbn; now rewrite app_nil_r.
Qed.

(** After [k] transient replies, with [k] attempts left, the loop is
    where it would be had it started at [attempt + k], [k] requests and
    [k] sleeps later. *)
Lemma attempts_retries env url max_retries retry_delay :
  forall (k : nat) attempt sent,
    attempt + Z.of_nat k <= max_retries ->
    (forall j, (j < k)%nat -> transient (requests_get env (sent + j)%nat url) = true) ->
    let r := attempts env url max_retries retry_delay
                      (iterations max_retries attempt) attempt sent in
    let r' := attempts env url max_retries retry_delay
                       (iterations max_retries (attempt + Z.of_nat k))
                       (attempt + Z.of_nat k) (sent + k)%nat in
    value r = value r'
    /\ requested (events r) = replicate k url ++ requested (events r')
    /\ sleeps (events r) = replicate k retry_delay ++ sleeps (events r')
    /\ sent_after r = sent_after r'.
Proof.
  induction k as [|k IH]; intros attempt sent Hle Htransient r r'; subst r r'.
  - rewrite Z.add_0_r, Nat.add_0_r. cbn [replicate app]. auto.
  - rewrite (iterations_turn max_retries attempt) by lia.
    pose proof (attempts_turn env url max_retries retry_delay
                  (iterations max_retries (attempt + 1)) attempt sent) as Hturn.
    cbv zeta in Hturn.
    assert (Hfirst : transient (requests_get env sent url) = true).
    { rewrite <- (Nat.add_0_r sent). apply Htransient. lia. }
    rewrite Hfirst in Hturn.
    replace (attempt <? max_retries) with true in Hturn by lia.
    cbn [andb] in Hturn. destruct Hturn as (Hv & Hreq & Hsl & Hsent).
    destruct (IH (attempt + 1) (S sent)) as (Hv' & Hreq' & Hsl' & Hsent').
    { lia. }
    { intros j Hj. replace (S sent + j)%nat with (sent + S j)%nat by lia.
      apply Htransient. lia. }
    replace (attempt + 1 + Z.of_nat k) with (attempt + Z.of_nat (S k)) in * by lia.
    replace (S sent + k)%nat with (sent + S k)%nat in * by lia.
    rewrite Hv, Hreq, Hsl, Hsent, Hv', Hreq', Hsl', Hsent'. cbn [replicate app]. auto.
Qed.

(** X1: transient failures within the budget do not show in the result.
    After [k <= max_retries] replies that are 403s or timeouts, a 2xx
    reply gives the outcome its page would give on a first attempt,
    after [k + 1] requests and [k] sleeps of [retry_delay] seconds. *)
Theorem retried_then_fetched env url max_retries retry_delay sent k status_code msg page :
  Z.of_nat k <= max_retries ->
  (forall j, (j < k)%nat -> transient (requests_get env (sent + j)%nat url) = true) ->
  requests_get env (sent + k)%nat url = Response status_code msg page ->
  200 <= status_code < 300 ->
  let r := extract_value_from_url env url max_retries retry_delay sent in
  value r = outcome_of_page page
  /\ requested (events r) = replicate (S k) url
  /\ sleeps (events r) = replicate k retry_delay
  /\ sent_after r = (sent + S k)%nat.
Proof.
  intros Hk Htransient Hreply Hok r. subst r.
  destruct (extract_run env url max_retries retry_delay sent) as (Hv & Hev & Hsent).
  destruct (attempts_retries env url max_retries retry_delay k 0 sent
              ltac:(lia) Htransient) as (Hv' & Hreq' & Hsl' & Hsent').
  rewrite Hv, Hev, Hsent, Hv', Hreq', Hsl', Hsent'. clear Hv Hev Hsent Hv' Hreq' Hsl' Hsent'.
  rewrite (iterations_turn max_retries (0 + Z.of_nat k)) by lia.
  pose proof (attempts_turn env url max_retries retry_delay
                (iterations max_retries (0 + Z.of_nat k + 1)) (0 + Z.of_nat k)
                (sent + k)%nat) as Hturn.
  cbv zeta in Hturn. rewrite Hreply in Hturn.
  unfold transient, attempt_outcome in Hturn.
  rewrite (raise_for_status_2xx _ _ _ Hok) in Hturn. cbn [andb] in Hturn.
  destruct Hturn as (-> & -> & -> & ->).
  rewrite app_nil_r. repeat split.
  - change (S k) with (1 + k)%nat. rewrite Nat.add_comm, replicate_add. reflexivity.
  - lia.
Qed.

Lemma retried_then_fetched_witness :
  let r := extract_value_from_url (env_of DataFrame_new flaky_server)
                                  "http://a" 2 5 0%nat in
  value r = Text "42 results"
  /\ requested (events r) = ["http://a"; "http://a"; "http://a"]
  /\ sleeps (events r) = [5%N; 5%N]
  /\ sent_after r = 3%nat.
Proof.
  apply (retried_then_fetched (env_of DataFrame_new flaky_server) "http://a" 2 5
           0%nat 2%nat 200 "" [span "id" "sidebar-title" "42 results"]).
  - lia.
  - intros [|[|j]] Hj; [reflexivity | reflexivity | lia].
  - reflexivity.
  - lia.
Defined.

(** The loop, started within its budget, makes at least one request
    and at most one for each turn left, sleeps [retry_delay] seconds
    between two requests and at no other time. *)
Lemma attempts_budget env url max_retries retry_delay :
  forall remaining attempt sent,
    remaining = iterations max_retries attempt ->
    attempt <= max_retries ->
    let r := attempts env url max_retries retry_delay remaining attempt sent in
    exists n : nat,
      (1 <= n <= remaining)%nat
      /\ requested (events r) = replicate n url
      /\ sleeps (events r) = replicate (n - 1) retry_delay
      /\ sent_after r = (sent + n)%nat.
Proof.
  induction remaining as [|turns IH]; intros attempt sent Hrem Hle r; subst r.
  { unfold iterations in Hrem. lia. }
  pose proof (attempts_turn env url max_retries retry_delay turns attempt sent)
    as Hturn.
  cbv zeta in Hturn.
  destruct (transient (requests_get env sent url) && (attempt <? max_retries))
    eqn:Hagain.
  - apply andb_prop in Hagain as [_ Hlt].
    destruct Hturn as (_ & Hreq & Hsl & Hsent).
    destruct (IH (attempt + 1) (S sent)) as (n & Hn & Hreq' & Hsl' & Hsent').
    { unfold iterations in *. lia. }
    { lia. }
    exists (S n). rewrite Hreq, Hsl, Hsent, Hreq', Hsl', Hsent'.
    split; [lia|]. split; [reflexivity|]. split; [|lia].
    destruct n as [|n]; [lia|]. cbn [Nat.sub replicate]. now rewrite Nat.sub_0_r.
  - destruct Hturn as (_ & Hreq & Hsl & Hsent).
    exists 1%nat. rewrite Hreq, Hsl, Hsent.
    split; [lia|]. split; [reflexivity|]. split; [reflexivity|lia].
Qed.



(** X3: with a negative [max_retries] the loop body is never entered:
    no request is made, nothing is logged, and the call returns the
    string of line 129 with the count [max_retries + 1]. *)
Theorem negative_budget_makes_no_request env url max_retries retry_delay sent :
  max_retries < 0 ->
  extract_value_from_url env url max_retries retry_delay sent
  = (FailureDescription
       ("Failed after " +:+ pretty (max_retries + 1)
        +:+ " attempts (last error was likely 403 or Timeout)"),
     [], sent).
Proof.
  intros Hneg. unfold extract_value_from_url.
  now rewrite (iterations_end max_retries 0) by lia.
Qed.

Lemma negative_budget_makes_no_request_witness :
  extract_value_from_url (env_of DataFrame_new title_server) "http://a" (-1) 5 0%nat
  = (FailureDescription
       "Failed after 0 attempts (last error was likely 403 or Timeout)",
     [], 0%nat).
Proof.
  apply (negative_budget_makes_no_request (env_of DataFrame_new title_server)
           "http://a" (-1) 5 0%nat).
  lia.
Defined.

(** X4: when every reply is a 403 or a timeout, the call gives up after
    [max_retries + 1] requests and [max_retries] sleeps, and its result
    tells the last reply only: "Request Timeout" for a timeout, "HTTP
    Error: 403 (Attempt <max_retries+1>)" for a 403. *)
Theorem budget_exhausted env url max_retries retry_delay sent :
  0 <= max_retries ->
  (forall j, (j <= Z.to_nat max_retries)%nat ->
             transient (requests_get env (sent + j)%nat url) = true) ->
  let r := extract_value_from_url env url max_retries retry_delay sent in
  value r = match requests_get env (sent + Z.to_nat max_retries)%nat url with
            | Raises (Timeout _) => FailureDescription "Request Timeout"
            | _ => FailureDescription
                     ("HTTP Error: 403 (Attempt " +:+ pretty (max_retries + 1)
                      +:+ ")")
            end
  /\ requested (events r) = replicate (S (Z.to_nat max_retries)) url
  /\ sleeps (events r) = replicate (Z.to_nat max_retries) retry_delay.
Proof.
  intros Hmr Htransient r. subst r.
  destruct (extract_run env url max_retries retry_delay sent) as (Hv & Hev & _).
  destruct (attempts_retries env url max_retries retry_delay (Z.to_nat max_retries)
              0 sent ltac:(lia) ltac:(intros j Hj; apply Htransient; lia))
    as (Hv' & Hreq' & Hsl' & _).
  rewrite Hv, Hev, Hv', Hreq', Hsl'. clear Hv Hev Hv' Hreq' Hsl'.
  replace (0 + Z.of_nat (Z.to_nat max_retries)) with max_retries by lia.
  rewrite (iterations_turn max_retries max_retries) by lia.
  pose proof (attempts_turn env url max_retries retry_delay
                (iterations max_retries (max_retries + 1)) max_retries
                (sent + Z.to_nat max_retries)%nat) as Hturn.
  cbv zeta in Hturn. rewrite Z.ltb_irrefl, andb_false_r in Hturn.
  destruct Hturn as (-> & -> & -> & _).
  specialize (Htransient (Z.to_nat max_retries) (le_n _)).
  split; [|split].
  - revert Htransient. unfold transient, attempt_outcome.
    destruct (requests_get env (sent + Z.to_nat max_retries)%nat url)
      as [status_code msg page|e]; cbn [raise_for_status].
    + destruct ((400 <=? status_code) && (status_code <? 600)); [|discriminate].
      intros H. apply bool_decide_eq_true in H. now injection H as ->.
    + destruct e; try discriminate; [|reflexivity].
      intros H. apply bool_decide_eq_true in H. now subst.
  - change (S (Z.to_nat max_retries)) with (1 + Z.to_nat max_retries)%nat.
    now rewrite Nat.add_comm, replicate_add.
  - now rewrite app_nil_r.
Qed.

Lemma budget_exhausted_witness :
  let r := extract_value_from_url (env_of DataFrame_new dead_server)
                                  "http://a" 2 5 0%nat in
  value r = FailureDescription "Request Timeout"
  /\ requested (events r) = ["http://a"; "http://a"; "http://a"]
  /\ sleeps (events r) = [5%N; 5%N].
Proof.
  apply (budget_exhausted (env_of DataFrame_new dead_server) "http://a" 2 5 0%nat).
  - lia.
  - intros [|[|[|j]]] Hj; [reflexivity | reflexivity | reflexivity |].
    cbn in Hj. lia.
Defined.

(** X5: an HTTP error other than 403 ends the call at the turn it
    occurs, whatever is left of the budget: the result names the status
    (or N/A when the error carries no response) and the number of the
    attempt, and the turn makes its one request and does not sleep. *)
Theorem http_error_is_final
    env url max_retries retry_delay attempt sent http_err status_code :
  attempt <= max_retries ->
  raise_for_status (requests_get env sent url) = inr (HTTPError http_err status_code) ->
  status_code <> Some 403 ->
  let r := attempts env url max_retries retry_delay
                    (iterations max_retries attempt) attempt sent in
  value r = Return (FailureDescription
                      ("HTTP Error: " +:+ str_status status_code +:+ " (Attempt "
                       +:+ pretty (attempt + 1) +:+ ")"))
  /\ requested (events r) = [url]
  /\ sleeps (events r) = []
  /\ sent_after r = S sent.
Proof.
  intros Hle Hreply Hstatus r. subst r.
  rewrite (iterations_turn _ _ Hle).
  pose proof (attempts_turn env url max_retries retry_delay
                (iterations max_retries (attempt + 1)) attempt sent) as Hturn.
  cbv zeta in Hturn. unfold transient, attempt_outcome in Hturn.
  rewrite Hreply in Hturn.
  rewrite bool_decide_eq_false_2 in Hturn by exact Hstatus.
  exact Hturn.
Qed.

Lemma http_error_is_final_witness :
  let r := attempts (env_of DataFrame_new failing_server) "http://a" 2 5
                    (iterations 2 0) 0 0%nat in
  value r = Return (FailureDescription "HTTP Error: 500 (Attempt 1)")
  /\ requested (events r) = ["http://a"]
  /\ sleeps (events r) = []
  /\ sent_after r = 1%nat.
Proof.
  apply (http_error_is_final (env_of DataFrame_new failing_server) "http://a" 2 5
           0 0%nat "500 Server Error: Internal Server Error" (Some 500)).
  - lia.
  - reflexivity.
  - discriminate.
Defined.

(** X6: an exception of [requests.get] that is neither an HTTP error
    nor a timeout ends the call at once, with the text of the exception
    in the result: "Request Exception: ..." for a [RequestException],
    "Unexpected Error: ..." for any other. *)
Theorem other_exceptions_are_final env url max_retries retry_delay attempt sent e :
  attempt <= max_retries ->
  requests_get env sent url = Raises e ->
  (forall msg status_code, e <> HTTPError msg status_code) ->
  (forall msg, e <> Timeout msg) ->
  let r := attempts env url max_retries retry_delay
                    (iterations max_retries attempt) attempt sent in
  value r = Return (FailureDescription
                      match e with
                      | RequestException req_err => "Request Exception: " +:+ req_err
                      | _ => "Unexpected Error: " +:+ str_exception e
                      end)
  /\ requested (events r) = [url]
  /\ sleeps (events r) = []
  /\ sent_after r = S sent.
Proof.
  intros Hle Hreply Hhttp Htimeout r. subst r.
  rewrite (iterations_turn _ _ Hle).
  pose proof (attempts_turn env url max_retries retry_delay
                (iterations max_retries (attempt + 1)) attempt sent) as Hturn.
  cbv zeta in Hturn. unfold transient, attempt_outcome in Hturn.
  rewrite Hreply in Hturn. cbn [raise_for_status] in Hturn.
  destruct e; try exact Hturn.
  - now destruct (Hhttp msg response_status).
  - now destruct (Htimeout msg).
Qed.

Lemma other_exceptions_are_final_witness :
  let r := attempts (env_of DataFrame_new unreachable_server) "http://a" 2 5
                    (iterations 2 0) 0 0%nat in
  value r = Return (FailureDescription "Request Exception: Connection refused")
  /\ requested (events r) = ["http://a"]
  /\ sleeps (events r) = []
  /\ sent_after r = 1%nat.
Proof.
  apply (other_exceptions_are_final (env_of DataFrame_new unreachable_server)
           "http://a" 2 5 0 0%nat (RequestException "Connection refused")).
  - lia.
  - reflexivity.
  - discriminate.
  - discriminate.
Defined.

(** X7: a 2xx page none of whose tags matches either selector gives
    [Absent] at the turn it is fetched: the page is not asked for
    again. *)
Theorem no_selector_is_absent
    env url max_retries retry_delay attempt sent status_code msg page :
  attempt <= max_retries ->
  requests_get env sent url = Response status_code msg page ->
  200 <= status_code < 300 ->
  (forall n, In n (descendants page) ->
             matches "span" "id" "sidebar-title" n = false
             /\ matches "span" "qaselector" "sidebar-result-counter" n = false) ->
  let r := attempts env url max_retries retry_delay
                    (iterations max_retries attempt) attempt sent in
  value r = Return Absent
  /\ requested (events r) = [url]
  /\ sleeps (events r) = []
  /\ sent_after r = S sent.
Proof.
  intros Hle Hreply Hok Hnone r. subst r.
  rewrite (iterations_turn _ _ Hle).
  pose proof (attempts_turn env url max_retries retry_delay
                (iterations max_retries (attempt + 1)) attempt sent) as Hturn.
  cbv zeta in Hturn. unfold transient, attempt_outcome in Hturn.
  rewrite Hreply, (raise_for_status_2xx _ _ _ Hok) in Hturn.
  cbn [andb] in Hturn. unfold outcome_of_page in Hturn.
  rewrite (proj2 (find_None "span" "id" "sidebar-title" page)) in Hturn
    by (intros n Hn; apply (Hnone n Hn)).
  rewrite (proj2 (find_None "span" "qaselector" "sidebar-result-counter" page))
    in Hturn by (intros n Hn; apply (Hnone n Hn)).
  exact Hturn.
Qed.

Lemma no_selector_is_absent_witness :
  let r := attempts (env_of DataFrame_new bare_server) "http://a" 2 5
                    (iterations 2 0) 0 0%nat in
  value r = Return Absent
  /\ requested (events r) = ["http://a"]
  /\ sleeps (events r) = []
  /\ sent_after r = 1%nat.
Proof.
  apply (no_selector_is_absent (env_of DataFrame_new bare_server) "http://a" 2 5
           0 0%nat 200 "" [Tag "html" [] [NavigableString "nothing here"]]).
  - lia.
  - reflexivity.
  - lia.
  - intros n [<-|[<-|[]]]; split; reflexivity.
Defined.

(** ** Loading, and what a run does when it cannot go on *)

(** X8: when the input file does not exist, [process_urls] returns
    without raising: the run is a warning from [import_file] and the
    error of the empty table, and nothing else (no request, no file
    written), with or without sampling. *)
Theorem missing_file_aborts
    env csv_filename output_csv_filename random_sample sample_size sent msg :
  read_csv env csv_filename = inr (FileNotFoundError msg) ->
  process_urls env csv_filename output_csv_filename random_sample sample_size sent
  = (Returned,
     [Log WARNING ("'" +:+ csv_filename +:+ "' not found.");
      Log ERROR "DataFrame is empty, exiting process_urls."],
     sent).
Proof.
  intros Hread. unfold process_urls, import_file. rewrite Hread. reflexivity.
Qed.

Lemma missing_file_aborts_witness :
  process_urls (env_of two_rows title_server) "missing.csv" "out.csv" true 1 0%nat
  = (Returned,
     [Log WARNING "'missing.csv' not found.";
      Log ERROR "DataFrame is empty, exiting process_urls."],
     0%nat).
Proof.
  apply (missing_file_aborts (env_of two_rows title_server) "missing.csv" "out.csv"
           true 1 0%nat "missing.csv").
  reflexivity.
Defined.



(** X10: with sampling on, a sample size that is negative or larger
    than the table makes [df.sample] raise; nothing catches it before
    [main], which logs it: the run makes no request and writes no
    file. *)
Theorem bad_sample_size_aborts
    env csv_filename output_csv_filename sample_size sent df :
  read_csv env csv_filename = inl df ->
  sample_size < 0 \/ Z.of_nat (nrows df) < sample_size ->
  exists msg,
    process_urls env csv_filename output_csv_filename true sample_size sent
    = (Raised (Exception msg), [], sent)
    /\ main env (payload_of csv_filename output_csv_filename true sample_size) sent
       = (tt, [Log ERROR ("An unexpected error occurred in main: " +:+ msg)], sent).
Proof.
  intros Hread Hsize.
  assert (Hrun : exists msg,
             process_urls env csv_filename output_csv_filename true sample_size sent
             = (Raised (Exception msg), [], sent)).
  { unfold process_urls, import_file, DataFrame_sample. rewrite Hread. cbn [negb].
    destruct (sample_size <? 0) eqn:Hneg; [eexists; reflexivity|].
    replace (Z.of_nat (nrows df) <? sample_size) with true by lia.
    eexists; reflexivity. }
  destruct Hrun as [msg Hrun]. exists msg. split; [exact Hrun|].
  unfold main, main_try, payload_of. cbn [payload_csv_filename
    payload_output_csv_filename payload_random_sample payload_sample_size].
  unfold mbind at 1. unfold M_bind at 1. now rewrite Hrun.
Qed.

Lemma bad_sample_size_aborts_witness :
  exists msg,
    process_urls (env_of two_rows title_server) "test.csv" "out.csv" true 3 0%nat
    = (Raised (Exception msg), [], 0%nat)
    /\ main (env_of two_rows title_server) (payload_of "test.csv" "out.csv" true 3)
            0%nat
       = (tt, [Log ERROR ("An unexpected error occurred in main: " +:+ msg)], 0%nat).
Proof.
  apply (bad_sample_size_aborts (env_of two_rows title_server) "test.csv" "out.csv"
           3 0%nat two_rows).
  - reflexivity.
  - right. cbn. lia.
Defined.

(** X11: a table that is not empty and has no [url] column stops
    [process_urls] with [KeyError('url')] before any request, and
    nothing is written; [main] then reports it with the words it has
    for a key missing from the payload, though the payload is
    complete. *)
Theorem missing_url_column_aborts
    env csv_filename output_csv_filename random_sample sample_size sent df :
  value (import_file env csv_filename random_sample sample_size sent) = inl df ->
  empty df = false ->
  getitem df "url" = None ->
  let r := process_urls env csv_filename output_csv_filename random_sample
                        sample_size sent in
  let m := main env (payload_of csv_filename output_csv_filename random_sample
                                sample_size) sent in
  value r = Raised (KeyError "url")
  /\ requested (events r) = [] /\ written (events r) = []
  /\ errors (events m) = ["Missing key in payload: 'url'"]
  /\ requested (events m) = [] /\ written (events m) = [].
Proof.
  intros Hload Hempty Hurl r m.
  destruct (import_file_quiet env csv_filename random_sample sample_size sent)
    as (Hw & Hr & _ & He & _).
  assert (Hurl' : getitem (setitem df "results" None) "url" = None)
    by (rewrite getitem_setitem_other by discriminate; exact Hurl).
  assert (Hrun : value r = Raised (KeyError "url")
                 /\ events r = events (import_file env csv_filename random_sample
                                                   sample_size sent)).
  { subst r. unfold process_urls.
    rewrite value_bind, events_bind, Hload, Hempty, Hurl'. cbn.
    now rewrite app_nil_r. }
  destruct Hrun as (Hvalue & Hevents).
  split; [exact Hvalue|]. rewrite Hevents. split; [exact Hr|]. split; [exact Hw|].
  subst m. unfold main, main_try, payload_of. cbn [payload_csv_filename
    payload_output_csv_filename payload_random_sample payload_sample_size].
  rewrite events_bind. fold r. rewrite Hvalue, Hevents.
  rewrite errors_app, requested_app, written_app, He, Hr, Hw. cbn. auto.
Qed.

Lemma missing_url_column_aborts_witness :
  let env := env_of no_url_table title_server in
  let r := process_urls env "test.csv" "out.csv" false 100 0%nat in
  let m := main env (payload_of "test.csv" "out.csv" false 100) 0%nat in
  value r = Raised (KeyError "url")
  /\ requested (events r) = [] /\ written (events r) = []
  /\ errors (events m) = ["Missing key in payload: 'url'"]
  /\ requested (events m) = [] /\ written (events m) = [].
Proof.
  apply (missing_url_column_aborts (env_of no_url_table title_server) "test.csv"
           "out.csv" false 100 0%nat no_url_table); reflexivity.
Defined.

(** X12: a payload that lacks one of its four keys makes [main] log the
    first key missing, in the order csv_filename, output_csv_filename,
    random_sample, sample_size, and do nothing else: no file is read. *)
Theorem missing_payload_key payload env sent :
  payload_csv_filename payload = None
  \/ payload_output_csv_filename payload = None
  \/ payload_random_sample payload = None
  \/ payload_sample_size payload = None ->
  main env payload sent
  = (tt,
     [Log ERROR
        ("Missing key in payload: '" +:+
         (match payload_csv_filename payload, payload_output_csv_filename payload,
                payload_random_sample payload with
          | None, _, _ => "csv_filename"
          | Some _, None, _ => "output_csv_filename"
          | Some _, Some _, None => "random_sample"
          | Some _, Some _, Some _ => "sample_size"
          end) +:+ "'")],
     sent).
Proof.
  intros Hmissing. unfold main, main_try.
  destruct (payload_csv_filename payload); [|reflexivity].
  destruct (payload_output_csv_filename payload); [|reflexivity].
  destruct (payload_random_sample payload); [|reflexivity].
  destruct (payload_sample_size payload); [|reflexivity].
  now destruct Hmissing as [H|[H|[H|H]]].
Qed.

Lemma missing_payload_key_witness :
  main (env_of two_rows title_server)
       {| payload_csv_filename := Some "test.csv";
          payload_output_csv_filename := None;
          payload_random_sample := Some false;
          payload_sample_size := None |} 0%nat
  = (tt, [Log ERROR "Missing key in payload: 'output_csv_filename'"], 0%nat).
Proof.
  apply (missing_payload_key
           {| payload_csv_filename := Some "test.csv";
              payload_output_csv_filename := None;
              payload_random_sample := Some false;
              payload_sample_size := None |}
           (env_of two_rows title_server) 0%nat).
  right. left. reflexivity.
Defined.

(** ** The requests and the write of a whole run *)

Lemma map_filter_comm {A B} (f : A -> B) (p : B -> bool) (l : list A) :
  List.filter p (List.map f l) = List.map f (List.filter (fun x => p (f x)) l).
Proof.
  induction l as [|x l IH]; [reflexivity|].
  cbn [List.map List.filter]. rewrite IH. now destruct (p (f x)).
Qed.

Lemma map_seq_lookup {A} (g : nat -> A) (l : list A) :
  forall k,
    (forall i x, l !! i = Some x -> g (k + i)%nat = x) ->
    List.map g (seq k (length l)) = l.
Proof.
  induction l as [|x l IH]; intros k Hg; [reflexivity|].
  cbn [length seq List.map]. f_equal.
  - rewrite <- (Hg O x eq_refl). f_equal. lia.
  - apply IH. intros i y Hy. rewrite <- (Hg (S i) y Hy). f_equal. lia.
Qed.

(** The rows of a well-formed table for which the loop makes requests
    are those of [visited], in order. *)
Lemma visited_rows df urls :
  getitem df "url" = Some urls ->
  length urls = nrows df ->
  List.map (fun r : nat * row => url_of (row_get (snd r) "url"))
           (List.filter nonblank (iterrows df))
  = visited urls.
Proof.
  intros Hurl Hlen. unfold visited, iterrows, nonblank.
  rewrite <- (map_filter_comm (fun r : nat * row => url_of (row_get (snd r) "url"))
                              (fun u => truthy (strip u))).
  f_equal. rewrite List.map_map. cbn [snd]. rewrite <- Hlen.
  transitivity (List.map (fun i => url_of (cell_at urls i)) (seq 0 (length urls))).
  - apply List.map_ext. intros i. now rewrite row_get_row_at, Hurl.
  - rewrite <- (List.map_map (cell_at urls) url_of). f_equal.
    apply map_seq_lookup. intros i c Hc. cbn [Nat.add]. unfold cell_at.
    now rewrite Hc.
Qed.

(** The loop requests the URLs of its non-blank rows, as they are
    written in the cells, in the order of the rows, each of them at
    least once and at most three times. *)
Lemma rows_loop_requested env total :
  forall rows made df sent,
  exists counts : list nat,
    length counts = length (List.filter nonblank rows)
    /\ Forall (fun n => 1 <= n <= 3)%nat counts
    /\ requested (events (rows_loop env total rows made df sent))
       = concat (zip_with replicate counts
                   (List.map (fun r : nat * row => url_of (row_get (snd r) "url"))
                             (List.filter nonblank rows))).
Proof.
  induction rows as [|[index r] rows IH]; intros made df sent.
  { exists []. split; [reflexivity|]. split; [constructor|reflexivity]. }
  cbn [rows_loop List.filter].
  change (nonblank (index, r)) with (truthy (strip (url_of (row_get r "url")))).
  rewrite events_bind, requested_app.
  destruct (truthy (strip (url_of (row_get r "url")))).
  - rewrite events_bind, requested_app, events_bind, requested_app.
    match goal with
    | |- context [extract_value_from_url env ?u 2 5 ?s] =>
        destruct (extract_run env u 2 5 s) as (_ & Hev & _);
        destruct (attempts_budget env u 2 5 (iterations 2 0) 0 s eq_refl ltac:(lia))
          as (n & Hn & Hreq & _)
    end.
    rewrite Hev, Hreq. clear Hev Hreq.
    match goal with
    | |- context [rows_loop env total rows ?made' ?df' ?sent'] =>
        destruct (IH made' df' sent') as (counts & Hlen & Hall & Hrest)
    end.
    rewrite Hrest. exists (n :: counts).
    split; [cbn [length]; now rewrite Hlen|].
    split; [constructor; [change (iterations 2 0) with 3%nat in Hn; lia|exact Hall]|].
    cbn [List.map zip_with concat log emit events fst snd requested flat_map app].
    f_equal. now destruct (_ <? _)%nat.
  - rewrite events_bind, requested_app.
    match goal with
    | |- context [rows_loop env total rows ?made' ?df' ?sent'] =>
        destruct (IH made' df' sent') as (counts & Hlen & Hall & Hrest)
    end.
    rewrite Hrest. exists counts. auto.
Qed.

(** X13: the requests of a run are those for the URLs of the rows
    whose URL is not blank, each as it stands in its cell, in the order
    of the rows, each made at least once and at most three times. *)
Theorem requests_follow_rows
    env csv_filename output_csv_filename random_sample sample_size sent df urls :
  value (import_file env csv_filename random_sample sample_size sent) = inl df ->
  empty df = false ->
  getitem df "url" = Some urls ->
  length urls = nrows df ->
  let r := process_urls env csv_filename output_csv_filename random_sample
                        sample_size sent in
  exists counts : list nat,
    length counts = length (visited urls)
    /\ Forall (fun n => 1 <= n <= 3)%nat counts
    /\ requested (events r) = concat (zip_with replicate counts (visited urls)).
Proof.
  intros Hload Hempty Hurl Hlen r. subst r. unfold process_urls.
  destruct (import_file_quiet env csv_filename random_sample sample_size sent)
    as (_ & Hr & _).
  rewrite events_bind, requested_app, Hr, Hload, Hempty.
  assert (Hurl' : getitem (setitem df "results" None) "url" = Some urls)
    by (rewrite getitem_setitem_other by discriminate; exact Hurl).
  rewrite Hurl'. cbn [app].
  set (df1 := setitem df "results" None) in *.
  rewrite events_bind, requested_app.
  match goal with
  | |- context [rows_loop env ?total (iterrows df1) 0 df1 ?s] =>
      destruct (rows_loop_requested env total (iterrows df1) 0%nat df1 s)
        as (counts & Hcounts & Hall & Hreq)
  end.
  rewrite (visited_rows df1 urls Hurl' Hlen) in Hreq.
  exists counts. split; [|split; [exact Hall|]].
  - rewrite Hcounts, <- (visited_rows df1 urls Hurl' Hlen). now rewrite length_map.
  - rewrite Hreq. unfold print_to_file, mbind, M_bind, mret, M_ret, log, emit.
    destruct (to_csv env output_csv_filename _);
      cbn [events fst snd requested flat_map app]; now rewrite app_nil_r.
Qed.

Lemma requests_follow_rows_witness :
  let r := process_urls (env_of blank_url_table flaky_server) "test.csv" "out.csv"
                        false 100 0%nat in
  exists counts : list nat,
    length counts = length (visited [Some "http://a"; Some "   "])
    /\ Forall (fun n => 1 <= n <= 3)%nat counts
    /\ requested (events r)
       = concat (zip_with replicate counts (visited [Some "http://a"; Some "   "])).
Proof.
  apply (requests_follow_rows (env_of blank_url_table flaky_server) "test.csv"
           "out.csv" false 100 0%nat blank_url_table
           [Some "http://a"; Some "   "]); reflexivity.
Defined.

(** X14: a run that reaches the end of the rows hands the table to
    [to_csv] once, as the last thing it does but for one log record,
    and returns normally also when the write fails: the failure is
    logged as an error, with the text of the exception. *)
Theorem write_failure_is_logged
    env csv_filename output_csv_filename random_sample sample_size sent df urls :
  value (import_file env csv_filename random_sample sample_size sent) = inl df ->
  empty df = false ->
  getitem df "url" = Some urls ->
  let r := process_urls env csv_filename output_csv_filename random_sample
                        sample_size sent in
  value r = Returned
  /\ exists before final,
      written before = []
      /\ events r
         = before ++
           [ToCsv output_csv_filename final;
            match to_csv env output_csv_filename final with
            | None => Log INFO ("Updated data saved to " +:+ output_csv_filename)
            | Some e => Log ERROR ("Error saving to " +:+ output_csv_filename
                                   +:+ ": " +:+ str_exception e)
            end].
Proof.
  intros Hload Hempty Hurl r. subst r. unfold process_urls.
  destruct (import_file_quiet env csv_filename random_sample sample_size sent)
    as (Hw & _).
  rewrite value_bind, events_bind, Hload, Hempty.
  assert (Hurl' : getitem (setitem df "results" None) "url" = Some urls)
    by (rewrite getitem_setitem_other by discriminate; exact Hurl).
  rewrite Hurl'.
  set (df1 := setitem df "results" None) in *.
  set (sent1 := sent_after _).
  split; [now rewrite !value_bind|].
  rewrite events_bind.
  set (loop := rows_loop env (count urls) (iterrows df1) 0 df1 sent1).
  exists (events (import_file env csv_filename random_sample sample_size sent)
          ++ events loop
          ++ [Log INFO (newline +:+ "--- Updated DataFrame ---");
              LogFrame INFO (value loop)]),
         (value loop).
  split.
  - rewrite !written_app, Hw. unfold loop. now rewrite rows_loop_no_write.
  - rewrite <- !app_assoc. f_equal. f_equal.
    generalize (sent_after loop). intros sent2.
    unfold print_to_file, mbind, M_bind, mret, M_ret, log, emit.
    now destruct (to_csv env output_csv_filename (value loop)).
Qed.

Lemma write_failure_is_logged_witness :
  let r := process_urls full_disk_env "test.csv" "out.csv" false 100 0%nat in
  value r = Returned
  /\ exists before final,
      written before = []
      /\ events r
         = before ++
           [ToCsv "out.csv" final;
            match to_csv full_disk_env "out.csv" final with
            | None => Log INFO ("Updated data saved to " +:+ "out.csv")
            | Some e => Log ERROR ("Error saving to " +:+ "out.csv"
                                   +:+ ": " +:+ str_exception e)
            end].
Proof.
  apply (write_failure_is_logged full_disk_env "test.csv" "out.csv" false 100 0%nat
           two_rows [None; Some "http://b"]); reflexivity.
Defined.

(** ** What follows the last request *)

Lemma after_last_request_skip evs evs' :
  requested evs = [] ->
  after_last_request (evs ++ evs') = after_last_request evs'.
Proof.
  induction evs as [|e evs IH]; intros Hnone; [reflexivity|].
  cbn [app after_last_request].
  destruct e; try discriminate Hnone; cbn in Hnone;
    rewrite (IH Hnone); now destruct (requested (evs ++ evs')).
Qed.

Lemma after_last_request_suffix evs evs' :
  requested evs' <> [] ->
  after_last_request (evs ++ evs') = after_last_request evs'.
Proof.
  intros Hsome. induction evs as [|e evs IH]; [reflexivity|].
  cbn [app after_last_request]. rewrite requested_app.
  destruct (requested evs ++ requested evs') eqn:E; [|exact IH].
  apply app_eq_nil in E as [_ E]. contradiction.
Qed.

Lemma after_last_request_prefix evs evs' :
  requested evs <> [] ->
  requested evs' = [] ->
  after_last_request (evs ++ evs') = after_last_request evs ++ evs'.
Proof.
  intros Hsome Hnone. induction evs as [|e evs IH]; [contradiction|].
  cbn [app after_last_request]. rewrite requested_app, Hnone, app_nil_r.
  destruct (requested evs) eqn:E.
  - destruct e; try reflexivity; exfalso; apply Hsome; exact E.
  - apply IH. discriminate.
Qed.

Lemma after_last_request_none evs :
  requested evs = [] -> after_last_request evs = [].
Proof.
  intros Hnone. rewrite <- (app_nil_r evs).
  now rewrite (after_last_request_skip evs [] Hnone).
Qed.

(** Within an extraction a sleep is always followed by a request. *)
Lemma attempts_end_without_sleep env url max_retries retry_delay :
  forall remaining attempt sent,
    remaining = iterations max_retries attempt ->
    attempt <= max_retries ->
    let evs := events (attempts env url max_retries retry_delay remaining attempt sent) in
    requested evs <> [] /\ sleeps (after_last_request evs) = [].
Proof.
  induction remaining as [|turns IH]; intros attempt sent Hrem Hle evs; subst evs.
  { unfold iterations in Hrem. lia. }
  assert (Hnext : (attempt <? max_retries) = true ->
            let evs := events (attempts env url max_retries retry_delay turns
                                        (attempt + 1) (S sent)) in
            requested evs <> [] /\ sleeps (after_last_request evs) = []).
  { intros Hlt. apply IH; [unfold iterations in *|]; lia. }
  cbv zeta in Hnext.
  assert (Hretry : forall a b c d (x : loop_exit) rest s',
             requested rest <> [] /\ sleeps (after_last_request rest) = [] ->
             requested (events (x, a :: Get url :: b :: c :: d :: rest, s')) <> []
             /\ sleeps (after_last_request
                          (events (x, a :: Get url :: b :: c :: d :: rest, s'))) = []).
  { intros a b c d x rest s' [Hreq Hsl]. cbn [events fst snd]. split.
    - cbn. destruct a; discriminate.
    - change (a :: Get url :: b :: c :: d :: rest)
        with ([a; Get url; b; c; d] ++ rest).
      now rewrite (after_last_request_suffix _ _ Hreq). }
  run_step.
  destruct (requests_get env sent url) as [status_code msg page|e];
    cbn [raise_for_status].
  - destruct ((400 <=? status_code) && (status_code <? 600)).
    + destruct (bool_decide _); cbn [andb]; [|cbn; split; [discriminate|reflexivity]].
      destruct (attempt <? max_retries); [|cbn; split; [discriminate|reflexivity]].
      specialize (Hnext eq_refl).
      destruct (attempts _ _ _ _ _ _ _) as [[x rest] s']. now apply Hretry.
    + destruct (find "span" "id" "sidebar-title" page) as [primary|].
      * destruct (get_text_strip primary); cbn; split; (discriminate || reflexivity).
      * destruct (find "span" "qaselector" "sidebar-result-counter" page)
          as [fallback|]; [|cbn; split; (discriminate || reflexivity)].
        destruct (get_text_strip fallback); cbn; split; (discriminate || reflexivity).
  - destruct e; try (cbn; split; (discriminate || reflexivity)).
    + destruct (bool_decide _); cbn [andb]; [|cbn; split; [discriminate|reflexivity]].
      destruct (attempt <? max_retries); [|cbn; split; [discriminate|reflexivity]].
      specialize (Hnext eq_refl).
      destruct (attempts _ _ _ _ _ _ _) as [[x rest] s']. now apply Hretry.
    + destruct (attempt <? max_retries); [|cbn; split; [discriminate|reflexivity]].
      specialize (Hnext eq_refl).
      destruct (attempts _ _ _ _ _ _ _) as [[x rest] s'].
      cbn [events fst snd app] in *. destruct Hnext as [Hreq Hsl]. split.
      * cbn. discriminate.
      * match goal with
        | |- context [after_last_request (?a :: Get url :: ?b :: ?c :: ?d :: rest)] =>
            change (a :: Get url :: b :: c :: d :: rest)
              with ([a; Get url; b; c; d] ++ rest)
        end.
        now rewrite (after_last_request_suffix _ _ Hreq).
Qed.

Lemma extract_end_without_sleep env url sent :
  let evs := events (extract_value_from_url env url 2 5 sent) in
  requested evs <> [] /\ sleeps (after_last_request evs) = [].
Proof.
  intros evs. subst evs.
  destruct (extract_run env url 2 5 sent) as (_ & -> & _).
  apply attempts_end_without_sleep; [reflexivity|lia].
Qed.

(** The throttle as specified never sleeps after the last request, and
    rows with blank URLs only are visited without request or sleep. *)
Lemma throttled_rows_end env :
  forall rows df sent,
    let evs := events (throttled_rows env rows df sent) in
    sleeps (after_last_request evs) = []
    /\ (if existsb nonblank rows then requested evs <> []
        else requested evs = [] /\ sleeps evs = []).
Proof.
  induction rows as [|[index r] rows IH]; intros df sent evs; subst evs.
  { cbn. auto. }
  cbn [throttled_rows existsb].
  change (nonblank (index, r)) with (truthy (strip (url_of (row_get r "url")))).
  rewrite events_bind.
  destruct (truthy (strip (url_of (row_get r "url")))); cbn [orb].
  - rewrite events_bind, events_bind.
    match goal with
    | |- context [extract_value_from_url env ?u 2 5 ?s] =>
        destruct (extract_end_without_sleep env u s) as (Hreq & Hsl);
        set (fetch := extract_value_from_url env u 2 5 s) in *
    end.
    match goal with
    | |- context [throttled_rows env rows ?df' ?sent'] =>
        destruct (IH df' sent') as (Hend & Hrest);
        set (rest := events (throttled_rows env rows df' sent')) in *
    end.
    split.
    + rewrite after_last_request_skip by reflexivity.
      destruct (existsb nonblank rows).
      * rewrite app_assoc, (after_last_request_suffix _ _ Hrest). exact Hend.
      * destruct Hrest as (Hnone & Hquiet). cbn [sleep emit mret M_ret events fst snd app].
        unfold mret, M_ret. cbn [events fst snd app].
        rewrite (after_last_request_prefix _ _ Hreq Hnone).
        unfold sleeps in *. now rewrite flat_map_app, Hsl, Hquiet.
    + rewrite !requested_app. intros H.
      apply app_eq_nil in H as [_ H]. apply app_eq_nil in H as [H _]. contradiction.
  - rewrite events_bind.
    match goal with
    | |- context [throttled_rows env rows ?df' ?sent'] =>
        destruct (IH df' sent') as (Hend & Hrest);
        set (rest := events (throttled_rows env rows df' sent')) in *
    end.
    split.
    + now rewrite !after_last_request_skip by reflexivity.
    + destruct (existsb nonblank rows).
      * rewrite !requested_app. cbn [log emit events fst snd requested flat_map app].
        exact Hrest.
      * destruct Hrest as (Hnone & Hquiet). unfold sleeps in *.
        rewrite !requested_app, !flat_map_app, Hnone, Hquiet. auto.
Qed.

(** X15: on a table whose [url] column has a cell for every row and
    holds no empty or all-blank text, a run does not sleep after its
    last request. *)
Theorem last_request_ends_the_waiting
    env csv_filename output_csv_filename random_sample sample_size sent df urls :
  value (import_file env csv_filename random_sample sample_size sent) = inl df ->
  empty df = false ->
  getitem df "url" = Some urls ->
  length urls = nrows df ->
  (forall i text, urls !! i = Some (Some text) -> truthy (strip text) = true) ->
  let r := process_urls env csv_filename output_csv_filename random_sample
                        sample_size sent in
  sleeps (after_last_request (events r)) = [].
Proof.
  intros Hload Hempty Hurl Hlen Hclean r. subst r. unfold process_urls.
  destruct (import_file_quiet env csv_filename random_sample sample_size sent)
    as (_ & Hr & _).
  rewrite events_bind, Hload, Hempty.
  assert (Hurl' : getitem (setitem df "results" None) "url" = Some urls)
    by (rewrite getitem_setitem_other by discriminate; exact Hurl).
  rewrite Hurl'.
  rewrite (after_last_request_skip _ _ Hr).
  set (df1 := setitem df "results" None) in *.
  set (sent1 := sent_after _).
  rewrite events_bind.
  rewrite (rows_loop_throttled env (count urls) (iterrows df1) 0 df1 sent1)
    by (now rewrite (count_is_nonblank_rows df1 urls Hurl' Hlen Hclean)).
  destruct (throttled_rows_end env (iterrows df1) df1 sent1) as (Hend & Hrest).
  set (loop := throttled_rows env (iterrows df1) df1 sent1) in *.
  assert (Htail : forall s,
             let tail := events
               ((log INFO (newline +:+ "--- Updated DataFrame ---")
                 ≫= (fun _ => emit (LogFrame INFO (value loop))
                 ≫= (fun _ => print_to_file env (value loop) output_csv_filename
                 ≫= (fun _ => mret Returned)))) s) in
             requested tail = [] /\ sleeps tail = []).
  { intros s. unfold print_to_file, mbind, M_bind, mret, M_ret, log, emit.
    now destruct (to_csv env output_csv_filename (value loop)). }
  destruct (Htail (sent_after loop)) as (Hnone & Hquiet).
  destruct (existsb nonblank (iterrows df1)).
  - rewrite (after_last_request_prefix _ _ Hrest Hnone).
    unfold sleeps in *. now rewrite flat_map_app, Hend, Hquiet.
  - destruct Hrest as (Hnone' & _).
    rewrite after_last_request_none; [reflexivity|].
    now rewrite requested_app, Hnone', Hnone.
Qed.

Lemma last_request_ends_the_waiting_witness :
  let r := process_urls (env_of missing_url_table flaky_server) "test.csv" "out.csv"
                        false 100 0%nat in
  sleeps (after_last_request (events r)) = [].
Proof.
  apply (last_request_ends_the_waiting (env_of missing_url_table flaky_server)
           "test.csv" "out.csv" false 100 0%nat missing_url_table
           [Some "http://a"; None]); try reflexivity.
  intros [|[|i]] text Htext; cbn in Htext; try discriminate.
  injection Htext as <-. reflexivity.
Defined.

(** The throttle on a table of three URLs. *)
Lemma throttle_as_specified_witness :
  let df := setitem three_rows "results" None in
  rows_loop (env_of three_rows flaky_server)
            (count [Some "http://a"; Some "http://b"; Some "http://c"])
            (iterrows df) 0 df 0%nat
  = throttled_rows (env_of three_rows flaky_server) (iterrows df) df 0%nat.
Proof.
  apply (throttle_as_specified (env_of three_rows flaky_server)
           (setitem three_rows "results" None)
           [Some "http://a"; Some "http://b"; Some "http://c"] 0%nat).
  - reflexivity.
  - reflexivity.
  - intros [|[|[|i]]] text Htext; cbn in Htext; try discriminate;
      injection Htext as <-; reflexivity.
Defined.
